(** * baza.py: the table layer of the clothing-shop database

    A shallow embedding of [baza.py]: the class [Tabela] with its
    methods ([ustvari], [izbrisi], [uvozi], [izprazni], [dodajanje],
    [dodaj_vrstico]), its five subclasses, the functions that run over
    the list of tables and [ustvari_bazo_ce_ne_obstaja].

    Python values are modelled as follows.
    - A [dict] is an association list with distinct keys in insertion
      order (Python keeps that order, and the order of the keys decides
      the order of the columns in the statement text).
    - [None] is [None] of [option]; a text value [v] is [Some v].
    - A method that may raise returns an [izid]; a method that works on
      the connection is a function on the state [svet].
    - The [sqlite3] connection and the file system are collaborators of
      the script; their behaviour on the statements the script issues is
      collected in the module [Sqlite] and in the record [okolje]. The
      state of the connection also keeps a log of the calls of
      [execute], so that the order of the calls can be stated. *)

From Stdlib Require Import Ascii String ZArith.
From stdpp Require Import gmap strings list fin_maps.

Open Scope string_scope.
Open Scope list_scope.

(** ** Python dictionaries *)

Module Slovar.

Abbreviation slovar V := (list (string * V)).

(** [d.keys()] and [d.items()] *)
Definition keys {V} (d : slovar V) : list string := d.*1.
Definition items {V} (d : slovar V) : list (string * V) := d.

(** The invariant of a [dict]: no key twice. *)
Definition veljaven {V} (d : slovar V) : Prop := NoDup (keys d).

(** [d[k]], [None] of the option when the key is missing *)
Fixpoint get {V} (d : slovar V) (k : string) : option V :=
  match d with
  | [] => None
  | (k', v) :: r => if decide (k' = k) then Some v else get r k
  end.

(** [d[k] = v]: a known key keeps its place and takes the new value, a
    new key goes to the end. *)
Fixpoint set {V} (d : slovar V) (k : string) (v : V) : slovar V :=
  match d with
  | [] => [(k, v)]
  | (k', v') :: r =>
      if decide (k' = k) then (k', v) :: r else (k', v') :: set r k v
  end.

(** [{k: v for k, v in pari}]: the pairs are stored one after another. *)
Definition comp {V} (pari : list (string * V)) : slovar V :=
  foldl (fun d kv => set d kv.1 kv.2) [] pari.

(** The value of the last pair with key [k]. *)
Fixpoint zadnja_vrednost {V} (k : string) (pari : list (string * V)) : option V :=
  match pari with
  | [] => None
  | (k', v) :: r =>
      match zadnja_vrednost k r with
      | Some v' => Some v'
      | None => if decide (k' = k) then Some v else None
      end
  end.

End Slovar.

Import Slovar.

(** ** Outcomes and exceptions *)

(** Why [sqlite3.OperationalError] was raised. *)
Inductive razlog : Type :=
  | SintaksnaNapaka
  | NiTabele (t : string)
  | TabelaObstaja (t : string)
  | NiStolpca (t s : string)
  | SteviloVrednosti
  | PodvojenStolpec (s : string)
  | TabelaZaklenjena.

Inductive izjema : Type :=
  | NotImplementedError
  | TypeError
  | StopIteration
  | OperationalError (r : razlog)
  | IntegrityError
  | ProgrammingError
  | DrugaIzjema (opis : string).

Inductive izid (A : Type) : Type :=
  | Vrni (a : A)
  | Sprozi (e : izjema).
Arguments Vrni {A} a.
Arguments Sprozi {A} e.

(** ** Building the statement text *)

Definition nl : string := String "010"%char EmptyString.

(** [PARAM_FMT = ":{}"], and [PARAM_FMT.format(s)] *)
Definition PARAM_FMT_format (s : string) : string := ":" +:+ s.

(** [", ".join(l)] *)
Definition join (sep : string) (l : list string) : string := String.concat sep l.

(** The class [Tabela] and its subclasses differ in three things: the
    class attributes [ime] and [podatki] and the statement that [ustvari]
    executes ([None] for the base class, whose [ustvari] raises
    [NotImplementedError]). *)
Record Tabela : Type := {
  ime : option string;
  podatki : option string;
  ustvari_sql : option string
}.

#[global] Instance Tabela_eq_dec : EqDecision Tabela.
Proof. solve_decision. Defined.

(** [f"{self.ime}"]: the text of the attribute, ["None"] for [None]. *)
Definition ime_niz (t : Tabela) : string :=
  match ime t with Some s => s | None => "None" end.

(** The two clauses of the statement, before they are put into the text. *)
Definition seznam_stolpcev (stolpci : list string) : list string := stolpci.
Definition seznam_parametrov (stolpci : list string) : list string :=
  map PARAM_FMT_format stolpci.

(** The text of the f-string of [dodajanje]. *)
Definition besedilo (t : Tabela) (stolpci : list string) : string :=
  nl +:+ "            INSERT INTO " +:+ ime_niz t +:+ " ("
  +:+ join ", " (seznam_stolpcev stolpci) +:+ ")" +:+ nl
  +:+ "            VALUES ("
  +:+ join ", " (seznam_parametrov stolpci) +:+ ");" +:+ nl
  +:+ "        ".

(** [Tabela.dodajanje]. The argument defaults to [None], and
    [", ".join(None)] raises [TypeError]. *)
Definition dodajanje (t : Tabela) (stolpci : option (list string)) : izid string :=
  match stolpci with
  | None => Sprozi TypeError
  | Some stolpci => Vrni (besedilo t stolpci)
  end.

(** The f-strings of [izbrisi] and [izprazni]. *)
Definition sql_izbrisi (t : Tabela) : string :=
  "DROP TABLE IF EXISTS " +:+ ime_niz t +:+ ";".
Definition sql_izprazni (t : Tabela) : string :=
  "DELETE FROM " +:+ ime_niz t +:+ ";".

(** ** Decoding a record of the source file *)

(** [None if v == '' else v] *)
Definition prazno_v_None (v : string) : option string :=
  if decide (v = EmptyString) then None else Some v.

(** The pairs the comprehension of [uvozi] runs over:
    [(k, None if v == '' else v) for k, v in zip(stolpci, vrstica)]. *)
Definition pari_vrstice (stolpci vrstica : list string) : list (string * option string) :=
  (fun kv => (kv.1, prazno_v_None kv.2)) <$> zip stolpci vrstica.

(** [{k: None if v == '' else v for k, v in zip(stolpci, vrstica)}] *)
Definition dekodiraj (stolpci vrstica : list string) : slovar (option string) :=
  comp (pari_vrstice stolpci vrstica).

(** [{kljuc: vrednost for kljuc, vrednost in podatki.items()
      if vrednost is not None}] *)
Definition brez_None (podatki : slovar (option string)) : slovar (option string) :=
  comp (filter (fun kv => is_Some kv.2) (items podatki)).


(** ** The storage engine

    [sqlite3] is a library the script calls, not code of the repository.
    This module states what the library does with the statements of the
    script, as far as the properties below rest on it. The text is
    cut into tokens and read as one of the statement forms the script
    issues; a text of another form is refused as a syntax error (quoted
    names, comments, expressions and several rows in [VALUES] are not
    read). Names of tables and columns are compared without regard to
    case. The words of a column's type and constraints are kept and not
    checked.

    The refusal of a text that is not read is the engine's answer only
    where the properties prove it to be one (the insert with an empty
    column list). A property that concludes from the return of an
    insert is stated for names that are identifiers, for which the text
    of [dodajanje] is proved to be read as the insert of one row that it
    spells; for other names the text is whatever the names spell, and
    what the engine does with it is not modelled.

    Foreign keys are not enforced: the script never turns them on (the
    [PRAGMA foreign_keys] line is commented out, after [conn.close()]),
    and [CREATE TABLE] does not look for the table a [REFERENCES] clause
    names.

    A [SELECT] that has a row to give stays in progress until its cursor
    is read to the end or released; while any statement is in progress,
    dropping a table that exists raises [OperationalError] (database
    table is locked). The rows themselves are not modelled: the script
    never fetches them.

    The checks of the values of a row ([NOT NULL], [PRIMARY KEY], type
    affinity) and the choice of the row identifier are left to the
    record [pogon]. *)

Module Sqlite.

Inductive zeton : Type :=
  | ZBeseda (w : string)
  | ZParam (w : string)
  | ZLevi
  | ZDesni
  | ZVejica
  | ZPodpicje
  | ZZvezdica
  | ZDrugo (c : ascii).

#[global] Instance zeton_eq_dec : EqDecision zeton.
Proof. solve_decision. Defined.

Definition koda (c : ascii) : N := N_of_ascii c.

Definition je_stevka (c : ascii) : bool :=
  (48 <=? koda c)%N && (koda c <=? 57)%N.
Definition je_velika_crka (c : ascii) : bool :=
  (65 <=? koda c)%N && (koda c <=? 90)%N.
Definition je_mala_crka (c : ascii) : bool :=
  (97 <=? koda c)%N && (koda c <=? 122)%N.

(** Characters of a word: letters, digits, [_], [$] and every byte
    above the ASCII range. *)
Definition je_znak_besede (c : ascii) : bool :=
  je_stevka c || je_velika_crka c || je_mala_crka c
  || bool_decide (c = "_"%char) || bool_decide (c = "$"%char)
  || (128 <=? koda c)%N.

(** Space, tab, line feed, form feed, carriage return. *)
Definition je_presledek (c : ascii) : bool :=
  bool_decide (koda c ∈ [32; 9; 10; 12; 13]%N).

Definition zeton_locila (c : ascii) : zeton :=
  if decide (c = "("%char) then ZLevi
  else if decide (c = ")"%char) then ZDesni
  else if decide (c = ","%char) then ZVejica
  else if decide (c = ";"%char) then ZPodpicje
  else if decide (c = "*"%char) then ZZvezdica
  else ZDrugo c.

(** The word or parameter being read: [(true, w)] after a colon. *)
Definition stanje : Type := option (bool * string).

Definition zakljuci (st : stanje) : list zeton :=
  match st with
  | None => []
  | Some (false, w) => [ZBeseda w]
  | Some (true, w) => [ZParam w]
  end.

Definition podaljsaj (st : stanje) (c : ascii) : stanje :=
  match st with
  | None => Some (false, String c EmptyString)
  | Some (p, w) => Some (p, w +:+ String c EmptyString)
  end.

Fixpoint lex (st : stanje) (s : string) : list zeton :=
  match s with
  | EmptyString => zakljuci st
  | String c r =>
      if je_znak_besede c then lex (podaljsaj st c) r
      else zakljuci st ++
           (if je_presledek c then lex None r
            else if decide (c = ":"%char) then lex (Some (true, EmptyString)) r
            else zeton_locila c :: lex None r)
  end.

Definition zetoni (s : string) : list zeton := lex None s.

Definition velika (c : ascii) : ascii :=
  if je_mala_crka c then ascii_of_N (koda c - 32) else c.
Definition mala_crka (c : ascii) : ascii :=
  if je_velika_crka c then ascii_of_N (koda c + 32) else c.

Fixpoint velike (s : string) : string :=
  match s with
  | EmptyString => EmptyString
  | String c r => String (velika c) (velike r)
  end.

(** The form in which a name is looked up. *)
Fixpoint mala (s : string) : string :=
  match s with
  | EmptyString => EmptyString
  | String c r => String (mala_crka c) (mala r)
  end.

(** Words that cannot name a table or a column. *)
Definition rezervirane : list string :=
  [ "ADD"; "ALL"; "ALTER"; "AND"; "AS"; "AUTOINCREMENT"; "BETWEEN"; "CASE";
    "CHECK"; "COLLATE"; "COMMIT"; "CONSTRAINT"; "CREATE"; "DEFAULT";
    "DEFERRABLE"; "DELETE"; "DISTINCT"; "DROP"; "ELSE"; "ESCAPE"; "EXCEPT";
    "EXISTS"; "FOREIGN"; "FROM"; "GROUP"; "HAVING"; "IN"; "INDEX"; "INSERT";
    "INTERSECT"; "INTO"; "IS"; "ISNULL"; "JOIN"; "LIMIT"; "NOT"; "NOTHING";
    "NOTNULL"; "NULL"; "ON"; "OR"; "ORDER"; "PRIMARY"; "REFERENCES";
    "RETURNING"; "SELECT"; "SET"; "TABLE"; "THEN"; "TO"; "TRANSACTION";
    "UNION"; "UNIQUE"; "UPDATE"; "USING"; "VALUES"; "WHEN"; "WHERE" ].

Definition je_ime (w : string) : bool :=
  match w with
  | EmptyString => false
  | String c _ =>
      negb (je_stevka c) && negb (bool_decide (c = "$"%char))
      && negb (bool_decide (velike w ∈ rezervirane))
  end.

Fixpoint vsi_znaki (p : ascii -> bool) (s : string) : bool :=
  match s with
  | EmptyString => true
  | String c r => p c && vsi_znaki p r
  end.

(** A text that is one word and may name a column. *)
Definition je_identifikator (w : string) : bool :=
  vsi_znaki je_znak_besede w && je_ime w.

(** The tokens of a list written with commas. *)
Fixpoint zetoni_seznama (f : string -> zeton) (l : list string) : list zeton :=
  match l with
  | [] => []
  | [x] => [f x]
  | x :: r => f x :: ZVejica :: zetoni_seznama f r
  end.

Definition kljucna (k : string) (z : zeton) : bool :=
  match z with
  | ZBeseda w => bool_decide (velike w = k)
  | _ => false
  end.

Record stolpec : Type := Stolpec { s_ime : string; s_opis : list zeton }.

Inductive stavek : Type :=
  | SDrop (t : string)
  | SCreate (t : string) (stolpci : list stolpec)
  | SDelete (t : string)
  | SInsert (t : string) (stolpci parametri : list string)
  (** the count of the rows of [t] when [stetje], else all its rows *)
  | SSelect (stetje : bool) (t : string).

(** [ime (, ime)* )] *)
Fixpoint imena (zs : list zeton) : option (list string * list zeton) :=
  match zs with
  | ZBeseda w :: ZDesni :: r => if je_ime w then Some ([w], r) else None
  | ZBeseda w :: ZVejica :: r =>
      if je_ime w
      then match imena r with
           | Some (l, r') => Some (w :: l, r')
           | None => None
           end
      else None
  | _ => None
  end.

(** [:ime (, :ime)* )] *)
Fixpoint parametri_stavka (zs : list zeton) : option (list string * list zeton) :=
  match zs with
  | ZParam w :: ZDesni :: r =>
      if decide (w = EmptyString) then None else Some ([w], r)
  | ZParam w :: ZVejica :: r =>
      if decide (w = EmptyString) then None
      else match parametri_stavka r with
           | Some (l, r') => Some (w :: l, r')
           | None => None
           end
  | _ => None
  end.

(** The column definitions of [CREATE TABLE], up to the closing
    parenthesis: a name, then the words of its type and constraints,
    which may hold parentheses of their own. *)
Fixpoint definicije (zs : list zeton) (tren : option (string * list zeton))
    (globina : nat) (zbrani : list stolpec) : option (list stolpec * list zeton) :=
  match zs with
  | [] => None
  | z :: r =>
      match tren with
      | None =>
          match z with
          | ZBeseda w => if je_ime w then definicije r (Some (w, [])) 0 zbrani else None
          | _ => None
          end
      | Some (n, op) =>
          match z, globina with
          | ZVejica, 0 => definicije r None 0 (zbrani ++ [Stolpec n op])
          | ZDesni, 0 => Some (zbrani ++ [Stolpec n op], r)
          | ZDesni, S g => definicije r (Some (n, op ++ [z])) g zbrani
          | ZLevi, g => definicije r (Some (n, op ++ [z])) (S g) zbrani
          | ZPodpicje, _ => None
          | ZZvezdica, _ => None
          | ZDrugo _, _ => None
          | ZParam _, _ => None
          | _, g => definicije r (Some (n, op ++ [z])) g zbrani
          end
      end
  end.

Definition beri_insert (zs : list zeton) : option (stavek * list zeton) :=
  match zs with
  | ZBeseda t :: ZLevi :: r =>
      if je_ime t
      then match imena r with
           | Some (stolpci, v :: ZLevi :: r') =>
               if kljucna "VALUES" v
               then match parametri_stavka r' with
                    | Some (par, r'') => Some (SInsert t stolpci par, r'')
                    | None => None
                    end
               else None
           | _ => None
           end
      else None
  | _ => None
  end.

Definition beri_create (zs : list zeton) : option (stavek * list zeton) :=
  match zs with
  | ZBeseda t :: ZLevi :: r =>
      if je_ime t
      then match definicije r None 0 [] with
           | Some (stolpci, r') => Some (SCreate t stolpci, r')
           | None => None
           end
      else None
  | _ => None
  end.

Definition beri_ime (f : string -> stavek) (zs : list zeton) : option (stavek * list zeton) :=
  match zs with
  | ZBeseda t :: r => if je_ime t then Some (f t, r) else None
  | _ => None
  end.

(** The statement at the head of the tokens, and the tokens after it. *)
Definition razcleni (zs : list zeton) : option (stavek * list zeton) :=
  match zs with
  | k1 :: k2 :: r =>
      if kljucna "INSERT" k1 && kljucna "INTO" k2 then beri_insert r
      else if kljucna "CREATE" k1 && kljucna "TABLE" k2 then beri_create r
      else if kljucna "DELETE" k1 && kljucna "FROM" k2 then beri_ime SDelete r
      else if kljucna "DROP" k1 && kljucna "TABLE" k2 then
        match r with
        | k3 :: k4 :: r' =>
            if kljucna "IF" k3 && kljucna "EXISTS" k4 then beri_ime SDrop r' else None
        | _ => None
        end
      else if kljucna "SELECT" k1 then
        match k2 :: r with
        | ZZvezdica :: k3 :: r' =>
            if kljucna "FROM" k3 then beri_ime (SSelect false) r' else None
        | k3 :: ZLevi :: ZZvezdica :: ZDesni :: k4 :: r' =>
            if kljucna "COUNT" k3 && kljucna "FROM" k4
            then beri_ime (SSelect true) r' else None
        | _ => None
        end
      else None
  | _ => None
  end.

(** The statement a text stands for, [None] when it is none of the
    forms; the flag says that more text follows the statement's
    semicolon ([execute] takes one statement only). *)
Definition pripravi (sql : string) : option (stavek * bool) :=
  match razcleni (zetoni sql) with
  | Some (st, []) | Some (st, [ZPodpicje]) => Some (st, false)
  | Some (st, ZPodpicje :: _) => Some (st, true)
  | _ => None
  end.

(** A row as the model keeps it: its identifier and the bindings of the
    insert that made it. What the engine stores for these bindings (the
    value after the type affinity of the column, one value when a column
    is named twice) is not modelled, and no property states what a row
    holds. *)
Definition vrstica : Type := list (string * option string).

Record tabela_stanje : Type := TabelaStanje {
  shema : list stolpec;
  vrstice : list (Z * vrstica);
  (** the largest identifier handed out so far *)
  zaporedje : Z
}.

(** A call of [conn.execute]: the text and the bindings. *)
Definition klic : Type := string * slovar (option string).

Record povezava : Type := Povezava {
  tabele : gmap string tabela_stanje;
  (** the tables as they were when the open transaction began *)
  transakcija : option (gmap string tabela_stanje);
  (** every call of [execute] so far, oldest first *)
  dnevnik : list klic;
  (** the number of statements in progress *)
  aktivni : nat;
  (** the identifier of the row inserted last, 0 before the first *)
  zadnji_rowid : Z
}.

(** A cursor: its [lastrowid], and whether its statement is still in
    progress. *)
Record kazalec : Type := Kazalec { lastrowid : Z; odprt : bool }.

(** What the engine decides from the values of a row: whether the row
    breaks a constraint of the table, and which identifier it gets. *)
Record pogon : Type := Pogon {
  krsi : string -> tabela_stanje -> vrstica -> bool;
  dodeli_rowid : string -> tabela_stanje -> vrstica -> Z
}.

Definition z_tabelami (c : povezava) (m : gmap string tabela_stanje) : povezava :=
  Povezava m (transakcija c) (dnevnik c) (aktivni c) (zadnji_rowid c).

Definition zabelezi (c : povezava) (k : klic) : povezava :=
  Povezava (tabele c) (transakcija c) (dnevnik c ++ [k]) (aktivni c) (zadnji_rowid c).

(** [sqlite3] opens a transaction before [INSERT] and [DELETE] when
    none is open. *)
Definition zacni (c : povezava) : povezava :=
  match transakcija c with
  | Some _ => c
  | None => Povezava (tabele c) (Some (tabele c)) (dnevnik c) (aktivni c) (zadnji_rowid c)
  end.

Definition commit (c : povezava) : povezava :=
  Povezava (tabele c) None (dnevnik c) (aktivni c) (zadnji_rowid c).

Definition rollback (c : povezava) : povezava :=
  match transakcija c with
  | Some m => Povezava m None (dnevnik c) (aktivni c) (zadnji_rowid c)
  | None => c
  end.

(** The cursor of a statement that is done. *)
Definition koncan (c : povezava) : kazalec := Kazalec (zadnji_rowid c) false.

(** The cursor of a query: in progress when it has a row to give. *)
Definition poizvedba (c : povezava) (ima_vrstico : bool) : povezava * izid kazalec :=
  if ima_vrstico
  then (Povezava (tabele c) (transakcija c) (dnevnik c) (S (aktivni c)) (zadnji_rowid c),
        Vrni (Kazalec (zadnji_rowid c) true))
  else (c, Vrni (koncan c)).

(** The cursor is released: its statement, if in progress, ends. *)
Definition sprosti (c : povezava) (k : kazalec) : povezava :=
  if odprt k
  then Povezava (tabele c) (transakcija c) (dnevnik c) (pred (aktivni c)) (zadnji_rowid c)
  else c.

Definition imena_stolpcev (ts : tabela_stanje) : list string :=
  (fun s => mala (s_ime s)) <$> shema ts.

Definition je_rowid (s : string) : bool :=
  bool_decide (mala s ∈ ["rowid"; "oid"; "_rowid_"]).

(** The first named column the table does not have. *)
Definition neznan_stolpec (ts : tabela_stanje) (stolpci : list string) : option string :=
  head (filter (fun s => ¬ (mala s ∈ imena_stolpcev ts ∨ je_rowid s)) stolpci).

(** The first column name defined twice. *)
Fixpoint podvojen (imena : list string) : option string :=
  match imena with
  | [] => None
  | n :: r => if decide (n ∈ r) then Some n else podvojen r
  end.

(** The values of the named parameters, [None] when one has no
    binding. *)
Definition vezave (par : slovar (option string)) (parametri : list string)
    : option (list (option string)) :=
  mapM (get par) parametri.

Definition brez_vrstic (ts : tabela_stanje) : tabela_stanje :=
  TabelaStanje (shema ts) [] (zaporedje ts).

Definition z_vrstico (ts : tabela_stanje) (id : Z) (v : vrstica) : tabela_stanje :=
  TabelaStanje (shema ts) (vrstice ts ++ [(id, v)]) (Z.max (zaporedje ts) id).

Definition po_vstavljanju (c : povezava) (t : string) (ts : tabela_stanje)
    (id : Z) (v : vrstica) : povezava :=
  Povezava (<[t := z_vrstico ts id v]> (tabele c)) (transakcija c) (dnevnik c)
           (aktivni c) id.

(** One statement is executed. What the compilation of the statement
    finds (a missing table or column, a table that is there already)
    comes first, then the refusal of a text with more than one statement
    ([vec]), then the execution itself. *)
Definition izvedi_stavek (P : pogon) (c : povezava) (st : stavek) (vec : bool)
    (par : slovar (option string)) : povezava * izid kazalec :=
  match st with
  | SDrop t =>
      if vec then (c, Sprozi ProgrammingError)
      else match tabele c !! mala t with
           | None => (c, Vrni (koncan c))
           | Some _ =>
               if bool_decide (aktivni c = 0)
               then (z_tabelami c (delete (mala t) (tabele c)), Vrni (koncan c))
               else (c, Sprozi (OperationalError TabelaZaklenjena))
           end
  | SCreate t stolpci =>
      match tabele c !! mala t with
      | Some _ => (c, Sprozi (OperationalError (TabelaObstaja t)))
      | None =>
          match podvojen ((fun s => mala (s_ime s)) <$> stolpci) with
          | Some s => (c, Sprozi (OperationalError (PodvojenStolpec s)))
          | None =>
              if vec then (c, Sprozi ProgrammingError)
              else (z_tabelami c (<[mala t := TabelaStanje stolpci [] 0]> (tabele c)),
                    Vrni (koncan c))
          end
      end
  | SDelete t =>
      match tabele c !! mala t with
      | None => (c, Sprozi (OperationalError (NiTabele t)))
      | Some ts =>
          if vec then (c, Sprozi ProgrammingError)
          else
            let c := zacni c in
            (z_tabelami c (<[mala t := brez_vrstic ts]> (tabele c)), Vrni (koncan c))
      end
  | SInsert t stolpci parametri =>
      match tabele c !! mala t with
      | None => (c, Sprozi (OperationalError (NiTabele t)))
      | Some ts =>
          match neznan_stolpec ts stolpci with
          | Some s => (c, Sprozi (OperationalError (NiStolpca t s)))
          | None =>
              if negb (bool_decide (length stolpci = length parametri))
              then (c, Sprozi (OperationalError SteviloVrednosti))
              else if vec then (c, Sprozi ProgrammingError)
              else
                let c := zacni c in
                match vezave par parametri with
                | None => (c, Sprozi ProgrammingError)
                | Some vrednosti =>
                    let v := zip stolpci vrednosti in
                    if krsi P (mala t) ts v then (c, Sprozi IntegrityError)
                    else
                      let id := dodeli_rowid P (mala t) ts v in
                      (po_vstavljanju c (mala t) ts id v, Vrni (Kazalec id false))
                end
          end
      end
  | SSelect stetje t =>
      if decide (mala t = "sqlite_master")
      then if vec then (c, Sprozi ProgrammingError)
           else poizvedba c (stetje || negb (bool_decide (tabele c = ∅)))
      else match tabele c !! mala t with
           | None => (c, Sprozi (OperationalError (NiTabele t)))
           | Some ts =>
               if vec then (c, Sprozi ProgrammingError)
               else poizvedba c (stetje || negb (bool_decide (vrstice ts = [])))
           end
  end.

(** [conn.execute(sql, par)] *)
Definition izvedi (P : pogon) (c : povezava) (sql : string)
    (par : slovar (option string)) : povezava * izid kazalec :=
  let c := zabelezi c (sql, par) in
  match pripravi sql with
  | None => (c, Sprozi (OperationalError SintaksnaNapaka))
  | Some (st, vec) => izvedi_stavek P c st vec par
  end.

End Sqlite.

(** ** The source files

    [open(pot, encoding=...)] followed by [csv.reader]: the records of
    the file as the reader yields them, and the exception that ends the
    reading early, if any (a byte that does not decode, a malformed
    field). *)
Record tok : Type := Tok {
  zapisi : list (list string);
  napaka : option izjema
}.

(** What surrounds the script: the engine's decisions and the files. *)
Record okolje : Type := Okolje {
  pogon_okolja : Sqlite.pogon;
  odpri : string -> string -> izid tok
}.

(** ** State and the monad of the methods *)

Record svet : Type := Svet {
  conn : Sqlite.povezava;
  (** the lines printed so far *)
  izpis : list string
}.

Definition M (A : Type) : Type := svet -> svet * izid A.

Definition vrni {A} (a : A) : M A := fun w => (w, Vrni a).
Definition sprozi {A} (e : izjema) : M A := fun w => (w, Sprozi e).
Definition vezi {A B} (m : M A) (f : A -> M B) : M B :=
  fun w =>
    match m w with
    | (w', Vrni a) => f a w'
    | (w', Sprozi e) => (w', Sprozi e)
    end.
Definition dvigni {A} (r : izid A) : M A := fun w => (w, r).

Declare Scope met_scope.
Delimit Scope met_scope with met.
Notation "x <- m ;; k" := (vezi m (fun x => k))
  (at level 100, m at next level, right associativity) : met_scope.
Notation "m ;;; k" := (vezi m (fun _ => k))
  (at level 100, right associativity) : met_scope.

(** [for x in l: f(x)] *)
Fixpoint za_vsak {A} (f : A -> M unit) (l : list A) : M unit :=
  match l with
  | [] => vrni tt
  | x :: r => (f x ;;; za_vsak f r)%met
  end.

Definition print (s : string) : M unit :=
  fun w => (Svet (conn w) (izpis w ++ [s]), Vrni tt).

Section Program.

Variable O : okolje.

(** [self.conn.execute(sql, par)] *)
Definition execute (sql : string) (par : slovar (option string)) : M Sqlite.kazalec :=
  fun w =>
    let '(c, r) := Sqlite.izvedi (pogon_okolja O) (conn w) sql par in
    (Svet c (izpis w), r).

(** A cursor nobody holds any more is released. *)
Definition zavrzi (cur : Sqlite.kazalec) : M unit :=
  fun w => (Svet (Sqlite.sprosti (conn w) cur) (izpis w), Vrni tt).

(** [Tabela.ustvari] and its overrides: the cursor [execute] returns is
    dropped at once. *)
Definition ustvari (t : Tabela) : M unit :=
  match ustvari_sql t with
  | None => sprozi NotImplementedError
  | Some sql => (cur <- execute sql [] ;; zavrzi cur)%met
  end.

(** [Tabela.izbrisi] *)
Definition izbrisi (t : Tabela) : M unit :=
  (cur <- execute (sql_izbrisi t) [] ;; zavrzi cur)%met.

(** [Tabela.izprazni] *)
Definition izprazni (t : Tabela) : M unit :=
  (cur <- execute (sql_izprazni t) [] ;; zavrzi cur)%met.

(** [Tabela.dodaj_vrstico]: the cursor is held in [cur] until the method
    returns. *)
Definition dodaj_vrstico (t : Tabela) (podatki : slovar (option string)) : M Z :=
  (let podatki := brez_None podatki in
   poizvedba <- dvigni (dodajanje t (Some (keys podatki))) ;;
   cur <- execute poizvedba podatki ;;
   zavrzi cur ;;;
   vrni (Sqlite.lastrowid cur))%met.

(** The call of [dodaj_vrstico] with the record unpacked into keyword
    arguments: a key [self] collides with the receiver. *)
Definition klici_dodaj_vrstico (t : Tabela) (vrstica : slovar (option string)) : M Z :=
  if decide ("self" ∈ keys vrstica) then sprozi TypeError
  else dodaj_vrstico t vrstica.

(** The loop of [uvozi] over the records after the header. *)
Fixpoint uvozi_vrstice (t : Tabela) (stolpci : list string)
    (vrstice : list (list string)) (konec : option izjema) : M unit :=
  match vrstice with
  | [] => match konec with Some e => sprozi e | None => vrni tt end
  | vrstica :: r =>
      (klici_dodaj_vrstico t (dekodiraj stolpci vrstica) ;;;
       uvozi_vrstice t stolpci r konec)%met
  end.

(** [Tabela.uvozi] *)
Definition uvozi (t : Tabela) (encoding : string) : M unit :=
  match podatki t with
  | None => vrni tt
  | Some pot =>
      match odpri O pot encoding with
      | Sprozi e => sprozi e
      | Vrni datoteka =>
          match zapisi datoteka with
          | [] =>
              (* next(podatki) on a reader that has nothing to yield *)
              sprozi (default StopIteration (napaka datoteka))
          | stolpci :: vrstice =>
              uvozi_vrstice t stolpci vrstice (napaka datoteka)
          end
      end
  end.

Definition ustvari_tabele (tabele : list Tabela) : M unit := za_vsak ustvari tabele.
Definition izbrisi_tabele (tabele : list Tabela) : M unit := za_vsak izbrisi tabele.
Definition uvozi_podatke (tabele : list Tabela) : M unit :=
  za_vsak (fun t => print ("uvozi v tabelo " +:+ ime_niz t) ;;; uvozi t "UTF-8")%met tabele.
Definition izprazni_tabele (tabele : list Tabela) : M unit := za_vsak izprazni tabele.

End Program.

(** ** The tables of the shop *)

(** The base class: no name, no data, [ustvari] not implemented. *)
Definition Tabela_osnova : Tabela :=
  {| ime := None; podatki := None; ustvari_sql := None |}.

Definition Stranka : Tabela :=
  {| ime := Some "stranka";
     podatki := Some "podatki/stranka.csv";
     ustvari_sql := Some "
            CREATE TABLE stranka (
                id          INTEGER PRIMARY KEY AUTOINCREMENT,
                first_name   TEXT NOT NULL,
                last_name   TEXT NOT NULL,
                email       TEXT NOT NULL,
                gender      TEXT NOT NULL,
                ip_address  TEXT NOT NULL
            );
        " |}.

Definition Oblacila : Tabela :=
  {| ime := Some "oblacilo";
     podatki := Some "podatki/oblacila.csv";
     ustvari_sql := Some "
            CREATE TABLE oblacilo (
                clothing_type     TEXT NOT NULL,
                size              TEXT NOT NULL,
                color             TEXT NOT NULL,
                brand             TEXT NOT NULL,
                material          TEXT NOT NULL,
                price             INTEGER NOT NULL,
                season            TEXT NOT NULL,
                ID        TEXT PRIMARY KEY
            );
        " |}.

Definition Zaloga : Tabela :=
  {| ime := Some "zaloga";
     podatki := Some "podatki/zaloga.csv";
     ustvari_sql := Some "
            CREATE TABLE zaloga (
                id_dobave            TEXT PRIMARY KEY,
                id_izdelka           TEXT REFERENCES oblacila(ID),
                price                REAL NOT NULL,
                quantity             INTEGER NOT NULL,
                date_of_launch       DATE
            );
        " |}.

Definition Kosarica : Tabela :=
  {| ime := Some "kosarica";
     podatki := Some "podatki/kosarica.csv";
     ustvari_sql := Some "
            CREATE TABLE kosarica (
                cart_id        INTEGER PRIMARY KEY AUTOINCREMENT,
                product_id          TEXT REFERENCES oblacila(ID),
                discount           REAL
            );
        " |}.

Definition Narocilo : Tabela :=
  {| ime := Some "narocilo";
     podatki := Some "podatki/narocilo.csv";
     ustvari_sql := Some "
            CREATE TABLE narocilo (
                id_kosarice      TEXT REFERENCES kosarica(id_kosarice),
                ID               TEXT REFERENCES stranka(id),
                status           BOOLEAN,
                status_2         BOOLEAN
            )
        " |}.

Section Baza.

Variable O : okolje.

(** [pripravi_tabele]: the objects all hold the same connection, which
    is the one of the state. *)
Definition pripravi_tabele : list Tabela :=
  [Stranka; Oblacila; Zaloga; Kosarica; Narocilo].

(** [ustvari_bazo] *)
Definition ustvari_bazo : M unit :=
  (let tabele := pripravi_tabele in
   izbrisi_tabele O tabele ;;;
   ustvari_tabele O tabele ;;;
   uvozi_podatke O tabele)%met.

(** [with conn:] commits when the block ends and rolls back when it
    raises. *)
Definition s_povezavo {A} (blok : M A) : M A :=
  fun w =>
    match blok w with
    | (w', Vrni a) => (Svet (Sqlite.commit (conn w')) (izpis w'), Vrni a)
    | (w', Sprozi e) => (Svet (Sqlite.rollback (conn w')) (izpis w'), Sprozi e)
    end.

(** The query of [ustvari_bazo_ce_ne_obstaja]. *)
Definition sql_obstoj : string := "SELECT COUNT(*) FROM sqlite_master".

(** [ustvari_bazo_ce_ne_obstaja]: the cursor of the query is bound to
    [cur] and never read (the test on it is commented out); it is held
    until the function returns, so the query is in progress while
    [ustvari_bazo] runs. *)
Definition ustvari_bazo_ce_ne_obstaja : M unit :=
  (cur <- s_povezavo (cur <- execute O sql_obstoj [] ;;
                      ustvari_bazo ;;;
                      vrni cur) ;;
   zavrzi cur)%met.

(** The statements of the script after the definitions: the database is
    built, the five tables are read (each cursor is dropped at once), the
    connection is closed (what is not committed is lost). The state it
    starts from is what the file [oblacila.db] holds. *)
Definition BAZA : string := "oblacila.db".

Definition preberi (sql : string) : M unit :=
  (cur <- execute O sql [] ;; zavrzi cur)%met.

Definition skripta : M unit :=
  (ustvari_bazo_ce_ne_obstaja ;;;
   preberi "SELECT * FROM stranka" ;;;
   preberi "SELECT * FROM oblacilo" ;;;
   preberi "SELECT * FROM zaloga" ;;;
   preberi "SELECT * FROM kosarica" ;;;
   preberi "SELECT * FROM narocilo" ;;;
   (fun w => (Svet (Sqlite.rollback (conn w)) (izpis w), Vrni tt)))%met.

End Baza.

(** ** Reading the state *)

(** The name under which the table of [t] is kept. *)
Definition kljuc (t : Tabela) : string := Sqlite.mala (ime_niz t).

(** The number of rows of the table named [k], 0 when there is none. *)
Definition stevilo_vrstic (w : svet) (k : string) : nat :=
  match Sqlite.tabele (conn w) !! k with
  | Some ts => length (Sqlite.vrstice ts)
  | None => 0
  end.

(** The [execute] call that [dodaj_vrstico] makes for a record of the
    source. *)
Definition klic_vrstice (t : Tabela) (stolpci vrstica : list string) : Sqlite.klic :=
  let podatki := brez_None (dekodiraj stolpci vrstica) in
  (besedilo t (keys podatki), podatki).

(** The columns the statement of [ustvari] declares. *)
Definition shema_tabele (t : Tabela) : list Sqlite.stolpec :=
  match ustvari_sql t with
  | Some sql =>
      match Sqlite.pripravi sql with
      | Some (Sqlite.SCreate _ stolpci, _) => stolpci
      | _ => []
      end
  | None => []
  end.

(** The table as [ustvari] leaves it: the declared columns, no row. *)
Definition nova_tabela (t : Tabela) : Sqlite.tabela_stanje :=
  Sqlite.TabelaStanje (shema_tabele t) [] 0.

(** The tables after [ustvari_tabele]. *)
Definition ustvarjene (l : list Tabela) (m : gmap string Sqlite.tabela_stanje)
    : gmap string Sqlite.tabela_stanje :=
  foldl (fun m t => <[kljuc t := nova_tabela t]> m) m l.


(** The [execute] calls of [izbrisi] and [ustvari]. *)
Definition klic_izbrisi (t : Tabela) : Sqlite.klic := (sql_izbrisi t, []).
Definition klic_ustvari (t : Tabela) : Sqlite.klic :=
  (default EmptyString (ustvari_sql t), []).

(** The sources of the tables of [l] have headers of identifiers: every
    name of a header can stand in the column list of an insert as it
    is. *)
Definition glave_z_imeni (O : okolje) (l : list Tabela) : Prop :=
  forall t pot stolpci vrstice konec,
    t ∈ l -> podatki t = Some pot ->
    odpri O pot "UTF-8" = Vrni (Tok (stolpci :: vrstice) konec) ->
    Forall (fun s => Sqlite.je_identifikator s = true) stolpci.

(** A call of [execute] made for the table of [t] whose text is the
    statement of [dodajanje] over the names of the bindings, and which
    the engine reads as the insert of one row with these columns. *)
Definition vstavi_eno (t : Tabela) (k : Sqlite.klic) : Prop :=
  k.1 = besedilo t (keys k.2)
  /\ Sqlite.pripravi k.1
     = Some (Sqlite.SInsert (ime_niz t) (keys k.2) (keys k.2), false).

(** The line [uvozi_podatke] prints for a table. *)
Definition vrstica_izpisa (t : Tabela) : string := "uvozi v tabelo " +:+ ime_niz t.

(** ** Examples of surroundings *)

(** The words [NOT NULL] in the description of a column. *)
Fixpoint je_not_null (opis : list Sqlite.zeton) : bool :=
  match opis with
  | z1 :: ((z2 :: _) as r) =>
      Sqlite.kljucna "NOT" z1 && Sqlite.kljucna "NULL" z2 || je_not_null r
  | _ => false
  end.

(** An engine that refuses a row when it leaves a [NOT NULL] column
    without a value, and numbers the rows 1, 2, ... *)
Definition pogon_primer : Sqlite.pogon :=
  Sqlite.Pogon
    (fun _ ts v =>
       bool_decide (Exists (fun s => je_not_null (Sqlite.s_opis s) = true
                                     /\ default None (get v (Sqlite.s_ime s)) = None)
                           (Sqlite.shema ts)))
    (fun _ ts _ => (Sqlite.zaporedje ts + 1)%Z).

Definition glava_stranke : list string :=
  ["first_name"; "last_name"; "email"; "gender"; "ip_address"].

(** A file system in which the source of [stranka] holds the header and
    two full records, and every other source is missing. *)
Definition okolje_primer : okolje :=
  Okolje pogon_primer
    (fun pot _ =>
       if decide (pot = "podatki/stranka.csv")
       then Vrni (Tok [glava_stranke;
                       ["Ana"; "Kos"; "ana@x.io"; "F"; "1.2.3.4"];
                       ["Bo"; "Dan"; "bo@x.io"; "M"; "5.6.7.8"]] None)
       else Sprozi (DrugaIzjema "FileNotFoundError")).

(** The same, but the first of the two records has only empty fields. *)
Definition okolje_prazno_polje : okolje :=
  Okolje pogon_primer
    (fun pot _ =>
       if decide (pot = "podatki/stranka.csv")
       then Vrni (Tok [glava_stranke;
                       [EmptyString; EmptyString; EmptyString; EmptyString; EmptyString];
                       ["Ana"; "Kos"; "ana@x.io"; "F"; "1.2.3.4"]] None)
       else Sprozi (DrugaIzjema "FileNotFoundError")).

(** A file system with one source per table: two customers, one record
    for each of the other tables. *)
Definition okolje_trgovina : okolje :=
  Okolje pogon_primer
    (fun pot _ =>
       if decide (pot = "podatki/stranka.csv")
       then Vrni (Tok [glava_stranke;
                       ["Ana"; "Kos"; "ana@x.io"; "F"; "1.2.3.4"];
                       ["Bo"; "Dan"; "bo@x.io"; "M"; "5.6.7.8"]] None)
       else if decide (pot = "podatki/oblacila.csv")
       then Vrni (Tok [["clothing_type"; "size"; "color"; "brand"; "material";
                        "price"; "season"; "ID"];
                       ["shirt"; "M"; "blue"; "Acme"; "cotton"; "20"; "summer"; "o1"]] None)
       else if decide (pot = "podatki/zaloga.csv")
       then Vrni (Tok [["id_dobave"; "id_izdelka"; "price"; "quantity"; "date_of_launch"];
                       ["d1"; "o1"; "12.5"; "3"; EmptyString]] None)
       else if decide (pot = "podatki/kosarica.csv")
       then Vrni (Tok [["product_id"; "discount"]; ["o1"; EmptyString]] None)
       else if decide (pot = "podatki/narocilo.csv")
       then Vrni (Tok [["id_kosarice"; "ID"; "status"; "status_2"];
                       ["1"; "1"; "1"; EmptyString]] None)
       else Sprozi (DrugaIzjema "FileNotFoundError")).

(** A new database: no table, no transaction, nothing executed. *)
Definition svet_prazen : svet := Svet (Sqlite.Povezava ∅ None [] 0 0) [].

(** The new database after [Stranka.ustvari]. *)
Definition svet_s_stranko : svet := (ustvari okolje_primer Stranka svet_prazen).1.

(** The same while a query on it is in progress. *)
Definition svet_s_poizvedbo : svet :=
  (execute okolje_primer sql_obstoj [] svet_s_stranko).1.

(** What a new process finds: the tables the last one left in the file,
    on a connection of its own. *)
Definition nov_zagon (w : svet) : svet :=
  Svet (Sqlite.Povezava (Sqlite.tabele (conn w)) None [] 0 0) [].

(** The database after the script has run once on a new database. *)
Definition svet_po_zagonu : svet :=
  nov_zagon (skripta okolje_trgovina svet_prazen).1.

(** * Properties *)

(** ** Dictionaries *)

Section SlovarLeme.

Context {V : Type}.
Implicit Types (d : slovar V) (k : string) (v : V) (l : list (string * V)).

Lemma get_set d k v k' :
  get (set d k v) k' = if decide (k = k') then Some v else get d k'.
Proof.
  induction d as [|[k0 v0] d IH]; simpl.
  - done.
  - destruct (decide (k0 = k)) as [->|Hne]; simpl.
    + destruct (decide (k = k')); done.
    + destruct (decide (k0 = k')) as [->|]; [|done].
      destruct (decide (k = k')); congruence.
Qed.

Lemma set_nov d k v : k ∉ keys d -> set d k v = d ++ [(k, v)].
Proof.
  induction d as [|[k0 v0] d IH]; simpl; [done|].
  intros Hk. apply not_elem_of_cons in Hk as [Hne Hk].
  destruct (decide (k0 = k)); [congruence|]. by rewrite IH.
Qed.

Lemma keys_set d k v : keys (set d k v) = if decide (k ∈ keys d) then keys d else keys d ++ [k].
Proof.
  induction d as [|[k0 v0] d IH]; simpl; [done|].
  destruct (decide (k0 = k)) as [->|Hne]; simpl.
  - rewrite decide_True; [done|]. by left.
  - unfold keys in *. rewrite IH.
    destruct (decide (k ∈ d.*1)) as [Hin|Hout].
    + rewrite decide_True; [done|]. by right.
    + rewrite decide_False; [done|]. intros [?|?]%elem_of_cons; congruence.
Qed.


Lemma foldl_set_nodup acc l :
  NoDup (keys (acc ++ l)) ->
  foldl (fun d kv => set d kv.1 kv.2) acc l = acc ++ l.
Proof.
  revert acc. induction l as [|[k v] l IH]; intros acc Hnd; simpl.
  - by rewrite app_nil_r.
  - rewrite set_nov.
    + rewrite IH; rewrite <- app_assoc; done.
    + unfold keys in *. rewrite fmap_app in Hnd.
      apply NoDup_app in Hnd as (_ & Hdis & _).
      intros Hin. apply (Hdis k Hin). simpl. by left.
Qed.

(** Storing pairs with distinct keys changes nothing. *)
Lemma comp_nodup l : NoDup l.*1 -> comp l = l.
Proof. intros Hnd. unfold comp. by rewrite foldl_set_nodup. Qed.

Lemma get_foldl_set acc l k :
  get (foldl (fun d kv => set d kv.1 kv.2) acc l) k =
  match zadnja_vrednost k l with
  | Some v => Some v
  | None => get acc k
  end.
Proof.
  revert acc. induction l as [|[k0 v0] l IH]; intros acc; simpl; [done|].
  rewrite IH. destruct (zadnja_vrednost k l); [done|].
  rewrite get_set. simpl. by destruct (decide (k0 = k)).
Qed.

(** A key of the comprehension holds the value of its last pair. *)
Lemma get_comp l k : get (comp l) k = zadnja_vrednost k l.
Proof. unfold comp. rewrite get_foldl_set. by destruct (zadnja_vrednost k l). Qed.



Lemma keys_foldl_set acc l x :
  x ∈ keys (foldl (fun d kv => set d kv.1 kv.2) acc l) <-> x ∈ keys acc \/ x ∈ l.*1.
Proof.
  revert acc. induction l as [|[k v] l IH]; intros acc; simpl.
  - rewrite elem_of_nil. tauto.
  - rewrite IH, keys_set, elem_of_cons.
    destruct (decide (k ∈ keys acc)) as [Hin|Hout].
    + split; [tauto|]. intros [?|[->|?]]; tauto.
    + rewrite elem_of_app, list_elem_of_singleton. tauto.
Qed.

Lemma keys_comp l x : x ∈ keys (comp l) <-> x ∈ l.*1.
Proof. unfold comp. rewrite keys_foldl_set. unfold keys. simpl. rewrite elem_of_nil. tauto. Qed.

Lemma get_None d k : get d k = None <-> k ∉ keys d.
Proof.
  induction d as [|[k0 v0] d IH]; simpl.
  - split; [intros _; apply not_elem_of_nil|done].
  - rewrite not_elem_of_cons. destruct (decide (k0 = k)) as [->|Hne].
    + split; [done|]. intros [? _]; congruence.
    + rewrite IH. split; [intros ?; split; [congruence|done]|tauto].
Qed.

Lemma zadnja_vrednost_None l k : zadnja_vrednost k l = None <-> k ∉ l.*1.
Proof. rewrite <- get_comp, get_None, keys_comp. done. Qed.

End SlovarLeme.

Lemma NoDup_keys_filter {V} (P : string * V -> Prop) `{!forall x, Decision (P x)}
    (d : slovar V) :
  veljaven d -> NoDup (filter P d).*1.
Proof.
  unfold veljaven, keys. induction d as [|[k v] d IH]; [done|].
  rewrite fmap_cons. intros [Hk Hd]%NoDup_cons. rewrite filter_cons.
  destruct (decide (P (k, v))); [|by apply IH].
  rewrite fmap_cons. simpl in *. apply NoDup_cons. split; [|by apply IH].
  intros Hin. apply Hk. apply list_elem_of_fmap in Hin as ([k' v'] & -> & Hin).
  apply list_elem_of_filter in Hin as [_ Hin].
  apply list_elem_of_fmap. by exists (k', v').
Qed.

(** [brez_None] keeps the entries whose value is present, in their order. *)
Lemma brez_None_filter (podatki : slovar (option string)) :
  veljaven podatki ->
  brez_None podatki = filter (fun kv => is_Some kv.2) podatki.
Proof. intros Hv. unfold brez_None, items. apply comp_nodup. by apply NoDup_keys_filter. Qed.

(** ** The record decoder *)

Lemma prazno_v_None_prazno : prazno_v_None EmptyString = None.
Proof. done. Qed.

Lemma prazno_v_None_drugo (v : string) : v <> EmptyString -> prazno_v_None v = Some v.
Proof. intros Hv. unfold prazno_v_None. by rewrite decide_False. Qed.

Lemma pari_vrstice_zip (stolpci vrstica : list string) :
  pari_vrstice stolpci vrstica = zip stolpci (prazno_v_None <$> vrstica).
Proof.
  unfold pari_vrstice. revert vrstica.
  induction stolpci as [|k stolpci IH]; intros [|v vrstica]; simpl; try done.
  by rewrite IH.
Qed.

Lemma pari_vrstice_kljuci (stolpci vrstica : list string) :
  (pari_vrstice stolpci vrstica).*1 = take (length vrstica) stolpci.
Proof.
  rewrite pari_vrstice_zip. revert vrstica.
  induction stolpci as [|k stolpci IH]; intros [|v vrstica]; simpl; try done.
  by rewrite IH.
Qed.

Lemma pari_vrstice_take (stolpci vrstica : list string) :
  let n := length stolpci `min` length vrstica in
  pari_vrstice stolpci vrstica = pari_vrstice (take n stolpci) (take n vrstica).
Proof.
  unfold pari_vrstice. revert vrstica.
  induction stolpci as [|k stolpci IH]; intros [|v vrstica]; simpl; try done.
  by rewrite <- IH.
Qed.

Lemma pari_vrstice_length (stolpci vrstica : list string) :
  length (pari_vrstice stolpci vrstica) = length stolpci `min` length vrstica.
Proof. unfold pari_vrstice. by rewrite length_fmap, length_zip. Qed.

Lemma take_min_dolzina {A} (l : list A) (m : nat) :
  take (length l `min` m) l = take m l.
Proof.
  destruct (decide (m <= length l)) as [Hle|Hgt].
  - by rewrite Nat.min_r.
  - rewrite Nat.min_l by lia. rewrite !take_ge; [done|lia|lia].
Qed.

(** C2, as amended. For a header without repeated names and a record of
    the same length, the decoded mapping holds, place by place, the name
    of the header with the value of the record, where the empty text has
    become [None] and every other text is kept. With repeated names the
    mapping holds for each name the converted value of its last place. *)
Theorem dekodiraj_po_mestih (stolpci vrstica : list string) :
  length stolpci = length vrstica ->
  (NoDup stolpci ->
     dekodiraj stolpci vrstica = zip stolpci (prazno_v_None <$> vrstica)
     /\ forall i k v, stolpci !! i = Some k -> vrstica !! i = Some v ->
          dekodiraj stolpci vrstica !! i
          = Some (k, if decide (v = EmptyString) then None else Some v))
  /\ (forall k, get (dekodiraj stolpci vrstica) k
                = zadnja_vrednost k (zip stolpci (prazno_v_None <$> vrstica)))
  /\ prazno_v_None EmptyString = None
  /\ (forall v, v <> EmptyString -> prazno_v_None v = Some v).
Proof.
  intros Hlen. split; [|split; [|split]].
  - intros Hnd.
    assert (Heq : dekodiraj stolpci vrstica = zip stolpci (prazno_v_None <$> vrstica)).
    { unfold dekodiraj. rewrite comp_nodup; [apply pari_vrstice_zip|].
      rewrite pari_vrstice_kljuci, <- Hlen, firstn_all. done. }
    split; [done|]. intros i k v Hk Hv. rewrite Heq.
    apply lookup_zip_with_Some. exists k, (prazno_v_None v).
    rewrite list_lookup_fmap, Hv. done.
  - intros k. unfold dekodiraj. by rewrite get_comp, pari_vrstice_zip.
  - apply prazno_v_None_prazno.
  - apply prazno_v_None_drugo.
Qed.

Lemma dekodiraj_po_mestih_primer :
  length ["first_name"; "email"] = length ["Ana"; EmptyString]
  /\ dekodiraj ["first_name"; "email"] ["Ana"; EmptyString]
     = [("first_name", Some "Ana"); ("email", None)].
Proof.
  split; [reflexivity|].
  destruct (dekodiraj_po_mestih ["first_name"; "email"] ["Ana"; EmptyString] eq_refl)
    as [H _].
  destruct H as [H _]; [|exact H].
  apply (bool_decide_unpack _). vm_compute. exact I.
Defined.

(** C2 as it is written fails when a name stands twice in the header: the
    first value is not in the mapping at all. *)
Lemma dekodiraj_ponovljeno_ime :
  length ["a"; "a"] = length ["1"; "2"]
  /\ dekodiraj ["a"; "a"] ["1"; "2"] = [("a", Some "2")]
  /\ dekodiraj ["a"; "a"] ["1"; "2"] <> zip ["a"; "a"] (prazno_v_None <$> ["1"; "2"]).
Proof. split; [done|]. split; [done|]. discriminate. Qed.

(** C10. A record is cut to the shorter of header and record, as [zip]
    does: the mapping is the one of the two sequences cut to that length,
    names past it have no entry (and so no column in the statement),
    values past it play no part. Decoding is a total function: no
    exception stands for a difference in length. *)
Theorem dekodiraj_prireze (stolpci vrstica : list string) :
  let n := length stolpci `min` length vrstica in
  dekodiraj stolpci vrstica = dekodiraj (take n stolpci) (take n vrstica)
  /\ length (pari_vrstice stolpci vrstica) = n
  /\ (forall k, k ∈ keys (dekodiraj stolpci vrstica) <-> k ∈ take n stolpci)
  /\ (forall k, k ∈ keys (brez_None (dekodiraj stolpci vrstica)) -> k ∈ take n stolpci)
  /\ (forall t, klic_vrstice t stolpci vrstica
                = klic_vrstice t (take n stolpci) (take n vrstica)).
Proof.
  intros n.
  assert (Hk : forall k, k ∈ keys (dekodiraj stolpci vrstica) <-> k ∈ take n stolpci).
  { intros k. unfold dekodiraj. rewrite keys_comp, pari_vrstice_kljuci.
    subst n. by rewrite take_min_dolzina. }
  assert (He : dekodiraj stolpci vrstica = dekodiraj (take n stolpci) (take n vrstica)).
  { unfold dekodiraj. by rewrite (pari_vrstice_take stolpci vrstica). }
  split; [done|]. split; [apply pari_vrstice_length|]. split; [done|]. split.
  - intros k Hin. apply Hk. unfold brez_None in Hin.
    apply (proj1 (keys_comp (filter _ _) k)) in Hin.
    apply list_elem_of_fmap in Hin as (kv & -> & Hin).
    apply list_elem_of_filter in Hin as [_ Hin].
    apply list_elem_of_fmap. by exists kv.
  - intros t. unfold klic_vrstice. by rewrite <- He.
Qed.

(** ** The engine: reading statements *)

Import Sqlite.

(** One step of the lexer. *)
Lemma lex_znak (st : stanje) (x : ascii) (r : string) :
  lex st (String x r) =
  if je_znak_besede x then lex (podaljsaj st x) r
  else zakljuci st ++
       (if je_presledek x then lex None r
        else if decide (x = ":"%char) then lex (Some (true, EmptyString)) r
        else zeton_locila x :: lex None r).
Proof. done. Qed.

(** A character that is no part of a word ends the word before it: the
    text up to it and the text from it on are cut into tokens apart. *)
Lemma lex_meja (st : stanje) (a : string) (c : ascii) (b : string) :
  je_znak_besede c = false ->
  lex st (a +:+ String c b) = lex st a ++ lex None (String c b).
Proof.
  intros Hc. revert st. induction a as [|x a IH]; intros st.
  - simpl. rewrite Hc. done.
  - change (String x a +:+ String c b) with (String x (a +:+ String c b)).
    rewrite !(lex_znak st x). destruct (je_znak_besede x).
    + apply IH.
    + destruct (je_presledek x); [|destruct (decide (x = ":"%char))];
        rewrite IH, <- ?app_assoc; done.
Qed.

Ltac po_tabelah H :=
  unfold pripravi_tabele in H;
  repeat (apply elem_of_cons in H as [->|H]);
  [..|by apply elem_of_nil in H].

Lemma pripravi_izbrisi (t : Tabela) :
  t ∈ pripravi_tabele ->
  pripravi (sql_izbrisi t) = Some (SDrop (ime_niz t), false).
Proof. intros Ht. po_tabelah Ht; vm_compute; reflexivity. Qed.

Lemma pripravi_izprazni (t : Tabela) :
  t ∈ pripravi_tabele ->
  pripravi (sql_izprazni t) = Some (SDelete (ime_niz t), false).
Proof. intros Ht. po_tabelah Ht; vm_compute; reflexivity. Qed.

Lemma pripravi_ustvari (t : Tabela) :
  t ∈ pripravi_tabele ->
  exists sql,
    ustvari_sql t = Some sql
    /\ pripravi sql = Some (SCreate (ime_niz t) (shema_tabele t), false)
    /\ podvojen ((fun s => mala (s_ime s)) <$> shema_tabele t) = None.
Proof.
  intros Ht. po_tabelah Ht; eexists; (split; [reflexivity|]);
    split; vm_compute; reflexivity.
Qed.

(** The names of the five tables are distinct. *)
Lemma kljuci_razlicni : NoDup (kljuc <$> pripravi_tabele).
Proof. apply (bool_decide_unpack _). vm_compute. exact I. Qed.

Lemma niz_app_assoc (a b c : string) : (a +:+ b) +:+ c = a +:+ (b +:+ c).
Proof.
  induction a as [|x a IH]; [done|].
  change (String x ((a +:+ b) +:+ c) = String x (a +:+ (b +:+ c))). by f_equal.
Qed.

Lemma besedilo_predpona (t : Tabela) (stolpci : list string) :
  besedilo t stolpci
  = (nl +:+ "            INSERT INTO " +:+ ime_niz t +:+ " ")
    +:+ String "("%char
          (join ", " (seznam_stolpcev stolpci) +:+ ")" +:+ nl
           +:+ "            VALUES ("
           +:+ join ", " (seznam_parametrov stolpci) +:+ ");" +:+ nl
           +:+ "        ").
Proof.
  unfold besedilo. rewrite !niz_app_assoc. done.
Qed.

Lemma lex_predpona (t : Tabela) :
  t ∈ pripravi_tabele ->
  lex None (nl +:+ "            INSERT INTO " +:+ ime_niz t +:+ " ")
  = [ZBeseda "INSERT"; ZBeseda "INTO"; ZBeseda (ime_niz t)]
  /\ je_ime (ime_niz t) = true.
Proof. intros Ht. po_tabelah Ht; split; vm_compute; reflexivity. Qed.

Lemma razcleni_besedilo (t : Tabela) (stolpci : list string) :
  t ∈ pripravi_tabele ->
  razcleni (zetoni (besedilo t stolpci)) = None
  \/ exists cs ps r,
       razcleni (zetoni (besedilo t stolpci)) = Some (SInsert (ime_niz t) cs ps, r).
Proof.
  intros Ht. destruct (lex_predpona t Ht) as [Hlex Hime].
  unfold zetoni. rewrite besedilo_predpona, lex_meja by done.
  rewrite Hlex, lex_znak. simpl.
  rewrite Hime.
  repeat case_match; eauto 6.
Qed.

(** The statement [dodajanje] builds for one of the five tables is either
    no statement at all or an insert into that table. *)
Lemma pripravi_besedilo (t : Tabela) (stolpci : list string) :
  t ∈ pripravi_tabele ->
  pripravi (besedilo t stolpci) = None
  \/ exists cs ps vec,
       pripravi (besedilo t stolpci) = Some (SInsert (ime_niz t) cs ps, vec).
Proof.
  intros Ht. unfold pripravi.
  destruct (razcleni_besedilo t stolpci Ht) as [->|(cs & ps & r & ->)]; [by left|].
  destruct r as [|[] [|? ?]]; eauto 6.
Qed.

(** *** Reading back the text of [dodajanje] *)

Lemma lex_beseda (p : bool) (acc w r : string) :
  vsi_znaki je_znak_besede w = true ->
  lex (Some (p, acc)) (w +:+ r) = lex (Some (p, acc +:+ w)) r.
Proof.
  revert acc. induction w as [|x w IH]; intros acc Hw.
  - replace (acc +:+ EmptyString) with acc; [done|].
    clear. induction acc as [|y acc IH]; [done|].
    change (String y acc = String y (acc +:+ EmptyString)). by f_equal.
  - simpl in Hw. apply andb_prop in Hw as [Hx Hw].
    change (String x w +:+ r) with (String x (w +:+ r)).
    rewrite lex_znak, Hx. simpl. rewrite IH by done.
    rewrite niz_app_assoc. done.
Qed.

Lemma lex_beseda_zacetek (w r : string) :
  w <> EmptyString ->
  vsi_znaki je_znak_besede w = true ->
  lex None (w +:+ r) = lex (Some (false, w)) r.
Proof.
  destruct w as [|x w]; [done|]. intros _ Hw.
  simpl in Hw. apply andb_prop in Hw as [Hx Hw].
  change (String x w +:+ r) with (String x (w +:+ r)).
  rewrite lex_znak, Hx. simpl. by rewrite lex_beseda.
Qed.

Lemma je_identifikator_lastnosti (w : string) :
  je_identifikator w = true ->
  w <> EmptyString /\ vsi_znaki je_znak_besede w = true /\ je_ime w = true.
Proof.
  unfold je_identifikator. intros [Hw Hi]%andb_prop.
  split; [by destruct w|done].
Qed.

Lemma join_cons (x y : string) (l : list string) :
  join ", " (x :: y :: l) = x +:+ String ","%char (String " "%char (join ", " (y :: l))).
Proof. done. Qed.

(** The column list, written and read back. *)
Lemma lex_stolpci (stolpci : list string) (r : string) :
  stolpci <> [] ->
  Forall (fun s => je_identifikator s = true) stolpci ->
  lex None (join ", " stolpci +:+ String ")"%char r)
  = zetoni_seznama ZBeseda stolpci ++ ZDesni :: lex None r.
Proof.
  intros Hne Hf. induction Hf as [|x l Hx Hl IH]; [done|]. clear Hne.
  apply je_identifikator_lastnosti in Hx as (Hx1 & Hx2 & _).
  destruct l as [|y l].
  - change (join ", " [x]) with x.
    rewrite lex_beseda_zacetek by done. done.
  - rewrite join_cons, niz_app_assoc.
    rewrite lex_beseda_zacetek by done.
    change ((String ","%char (String " "%char (join ", " (y :: l)))) +:+ String ")"%char r)
      with (String ","%char (String " "%char (join ", " (y :: l) +:+ String ")"%char r))).
    set (J := join ", " (y :: l)) in *.
    rewrite !lex_znak. simpl. rewrite IH by done. done.
Qed.

Lemma join_parametrov_en (x : string) :
  join ", " (seznam_parametrov [x]) = String ":"%char x.
Proof. done. Qed.

Lemma join_parametrov_vec (x y : string) (l : list string) :
  join ", " (seznam_parametrov (x :: y :: l))
  = String ":"%char
      (x +:+ String ","%char (String " "%char (join ", " (seznam_parametrov (y :: l))))).
Proof. done. Qed.

(** The placeholder list, written and read back. *)
Lemma lex_parametri (stolpci : list string) (r : string) :
  stolpci <> [] ->
  Forall (fun s => je_identifikator s = true) stolpci ->
  lex None (join ", " (seznam_parametrov stolpci) +:+ String ")"%char r)
  = zetoni_seznama ZParam stolpci ++ ZDesni :: lex None r.
Proof.
  intros Hne Hf. induction Hf as [|x l Hx Hl IH]; [done|]. clear Hne.
  apply je_identifikator_lastnosti in Hx as (Hx1 & Hx2 & _).
  destruct l as [|y l].
  - rewrite join_parametrov_en.
    change (String ":"%char x +:+ String ")"%char r)
      with (String ":"%char (x +:+ String ")"%char r)).
    rewrite lex_znak. simpl. rewrite lex_beseda by done. done.
  - rewrite join_parametrov_vec.
    set (J := join ", " (seznam_parametrov (y :: l))) in *.
    change (String ":"%char (x +:+ String ","%char (String " "%char J)) +:+ String ")"%char r)
      with (String ":"%char ((x +:+ String ","%char (String " "%char J)) +:+ String ")"%char r)).
    rewrite lex_znak. simpl. rewrite niz_app_assoc, lex_beseda by done.
    change ((String ","%char (String " "%char J)) +:+ String ")"%char r)
      with (String ","%char (String " "%char (J +:+ String ")"%char r))).
    rewrite !lex_znak. simpl. rewrite IH by done. done.
Qed.

Lemma imena_stolpcev_nazaj (stolpci : list string) (r : list zeton) :
  stolpci <> [] ->
  Forall (fun s => je_identifikator s = true) stolpci ->
  imena (zetoni_seznama ZBeseda stolpci ++ ZDesni :: r) = Some (stolpci, r).
Proof.
  intros Hne Hf. induction Hf as [|x l Hx Hl IH]; [done|]. clear Hne.
  apply je_identifikator_lastnosti in Hx as (_ & _ & Hx).
  destruct l as [|y l].
  - simpl. by rewrite Hx.
  - change (zetoni_seznama ZBeseda (x :: y :: l) ++ ZDesni :: r)
      with (ZBeseda x :: ZVejica :: (zetoni_seznama ZBeseda (y :: l) ++ ZDesni :: r)).
    cbn [imena]. rewrite Hx, IH by done. done.
Qed.

Lemma parametri_nazaj (stolpci : list string) (r : list zeton) :
  stolpci <> [] ->
  Forall (fun s => je_identifikator s = true) stolpci ->
  parametri_stavka (zetoni_seznama ZParam stolpci ++ ZDesni :: r) = Some (stolpci, r).
Proof.
  intros Hne Hf. induction Hf as [|x l Hx Hl IH]; [done|]. clear Hne.
  apply je_identifikator_lastnosti in Hx as (Hx & _ & _).
  destruct l as [|y l].
  - simpl. by rewrite decide_False.
  - change (zetoni_seznama ZParam (x :: y :: l) ++ ZDesni :: r)
      with (ZParam x :: ZVejica :: (zetoni_seznama ZParam (y :: l) ++ ZDesni :: r)).
    cbn [parametri_stavka]. rewrite decide_False, IH by done. done.
Qed.

(** The text of [dodajanje] over names that are identifiers reads back as
    the insert into the table with those columns and, as parameters,
    those names again. *)
Lemma pripravi_besedilo_imena (t : Tabela) (stolpci : list string) :
  t ∈ pripravi_tabele ->
  stolpci <> [] ->
  Forall (fun s => je_identifikator s = true) stolpci ->
  pripravi (besedilo t stolpci) = Some (SInsert (ime_niz t) stolpci stolpci, false).
Proof.
  intros Ht Hne Hf. destruct (lex_predpona t Ht) as [Hlex Hime].
  unfold pripravi, zetoni. rewrite besedilo_predpona, lex_meja by done.
  rewrite Hlex, lex_znak. simpl.
  unfold seznam_stolpcev.
  change (")" +:+ ?a) with (String ")"%char a).
  rewrite lex_stolpci by done.
  change (nl +:+ "            VALUES (" +:+ ?a)
    with ((nl +:+ "            VALUES ") +:+ String "("%char a).
  rewrite lex_meja by done.
  change (lex None (nl +:+ "            VALUES ")) with [ZBeseda "VALUES"].
  rewrite lex_znak. simpl.
  change (");" +:+ ?a) with (String ")"%char (String ";"%char a)).
  rewrite lex_parametri by done.
  change (lex None (String ";"%char (nl +:+ "        "))) with [ZPodpicje].
  rewrite Hime, imena_stolpcev_nazaj by done.
  simpl. rewrite parametri_nazaj by done. done.
Qed.

(** ** The statement builder *)

(** C3. The statement of [dodajanje] is the fixed text around two lists,
    the columns and the placeholders, joined with the same separator; the
    lists have the same length, and the placeholder at a place is the
    colon followed by the column at that place. For one of the five
    tables and names that are identifiers the engine reads the text back
    as the insert with these columns and, as parameters, the same names
    in the same order. *)
Theorem dodajanje_poravnano (t : Tabela) (stolpci : list string) :
  stolpci <> [] ->
  dodajanje t (Some stolpci)
  = Vrni (nl +:+ "            INSERT INTO " +:+ ime_niz t +:+ " ("
          +:+ join ", " (seznam_stolpcev stolpci) +:+ ")" +:+ nl
          +:+ "            VALUES ("
          +:+ join ", " (seznam_parametrov stolpci) +:+ ");" +:+ nl
          +:+ "        ")
  /\ seznam_stolpcev stolpci = stolpci
  /\ length (seznam_parametrov stolpci) = length (seznam_stolpcev stolpci)
  /\ (forall i s, seznam_stolpcev stolpci !! i = Some s ->
        seznam_parametrov stolpci !! i = Some (":" +:+ s))
  /\ (t ∈ pripravi_tabele ->
      Forall (fun s => je_identifikator s = true) stolpci ->
      pripravi (besedilo t stolpci) = Some (SInsert (ime_niz t) stolpci stolpci, false)).
Proof.
  intros Hne. split; [done|]. split; [done|]. split; [|split].
  - unfold seznam_parametrov, seznam_stolpcev. apply length_fmap.
  - intros i s Hs. unfold seznam_parametrov, seznam_stolpcev in *.
    rewrite list_lookup_fmap, Hs. done.
  - intros Ht Hf. by apply pripravi_besedilo_imena.
Qed.

Lemma dodajanje_poravnano_primer :
  seznam_parametrov ["first_name"; "email"] !! 1 = Some ":email".
Proof.
  destruct (dodajanje_poravnano Stranka ["first_name"; "email"]) as (_ & _ & _ & H & _).
  - discriminate.
  - apply (H 1 "email"). reflexivity.
Defined.

(** ** Inserting a row *)

Section Vstavljanje.

Variable O : okolje.

(** C1. [dodaj_vrstico] drops the entries whose value is [None], keeps the
    others in their order, builds the statement with [dodajanje] over the
    keys that are left, executes it with the entries that are left as
    bindings, and returns the [lastrowid] of the cursor (or raises what
    the execution raises). *)
Theorem dodaj_vrstico_potek (t : Tabela) (podatki : slovar (option string)) (w : svet) :
  veljaven podatki ->
  let ostali := filter (fun kv => is_Some kv.2) podatki in
  brez_None podatki = ostali
  /\ (forall k v, (k, v) ∈ ostali <-> (k, v) ∈ podatki /\ v <> None)
  /\ exists poizvedba,
       dodajanje t (Some (keys ostali)) = Vrni poizvedba
       /\ dodaj_vrstico O t podatki w
          = (let '(c, r) := izvedi (pogon_okolja O) (conn w) poizvedba ostali in
             match r with
             | Vrni cur => (Svet (sprosti c cur) (izpis w), Vrni (lastrowid cur))
             | Sprozi e => (Svet c (izpis w), Sprozi e)
             end).
Proof.
  intros Hv ostali. split; [by apply brez_None_filter|]. split.
  - intros k v. subst ostali. rewrite list_elem_of_filter. simpl.
    rewrite <- not_eq_None_Some. tauto.
  - exists (besedilo t (keys ostali)). split; [done|].
    unfold dodaj_vrstico, vezi, dvigni, execute, zavrzi, vrni.
    rewrite brez_None_filter by done. fold ostali. simpl.
    destruct (izvedi _ _ _ _) as [c [cur|e]]; done.
Qed.

End Vstavljanje.

Lemma dodaj_vrstico_potek_primer :
  brez_None [("first_name", Some "Ana"); ("email", None)] = [("first_name", Some "Ana")].
Proof.
  refine (proj1 (dodaj_vrstico_potek okolje_primer Stranka
                   [("first_name", Some "Ana"); ("email", None)] svet_prazen _)).
  apply (bool_decide_unpack _). vm_compute. exact I.
Defined.

(** ** The engine: what a statement does *)

Lemma izvedi_dnevnik (P : pogon) (c : povezava) (sql : string) (par : slovar (option string)) :
  dnevnik (izvedi P c sql par).1 = dnevnik c ++ [(sql, par)].
Proof.
  unfold izvedi, izvedi_stavek, poizvedba, po_vstavljanju, zacni, z_tabelami, zabelezi.
  repeat case_match; done.
Qed.

(** A successful insert adds one row to its table and leaves the other
    tables alone; a failed one leaves every table alone. The cursor of an
    insert is never in progress. *)
Lemma izvedi_insert (P : pogon) (c c' : povezava) (t : string) (cs ps : list string)
    (vec : bool) (par : slovar (option string)) (r : izid kazalec) :
  izvedi_stavek P c (SInsert t cs ps) vec par = (c', r) ->
  aktivni c' = aktivni c
  /\ match r with
     | Vrni cur =>
         odprt cur = false
         /\ exists ts id v,
              tabele c !! mala t = Some ts
              /\ tabele c' = <[mala t := z_vrstico ts id v]> (tabele c)
     | Sprozi _ => tabele c' = tabele c
     end.
Proof.
  unfold izvedi_stavek, po_vstavljanju, zacni, z_tabelami.
  intros H. repeat case_match; simplify_eq; simpl; eauto 8.
Qed.

Section Ucinki.

Variable O : okolje.

(** [izbrisi] on one of the five tables: nothing happens when the table
    is not there; a table that is there is removed when no statement is
    in progress, and otherwise the call raises. *)
Lemma izbrisi_potek (t : Tabela) (w : svet) :
  t ∈ pripravi_tabele ->
  izbrisi O t w
  = let c := zabelezi (conn w) (klic_izbrisi t) in
    match tabele (conn w) !! kljuc t with
    | None => (Svet c (izpis w), Vrni tt)
    | Some _ =>
        if bool_decide (aktivni (conn w) = 0)
        then (Svet (z_tabelami c (delete (kljuc t) (tabele (conn w)))) (izpis w), Vrni tt)
        else (Svet c (izpis w), Sprozi (OperationalError TabelaZaklenjena))
    end.
Proof.
  intros Ht. destruct w as [[m tx log akt rid] out].
  unfold izbrisi, vezi, execute, zavrzi, izvedi.
  rewrite (pripravi_izbrisi t Ht). simpl. fold (kljuc t).
  destruct (m !! kljuc t); [|done].
  destruct (bool_decide (akt = 0)); done.
Qed.

(** Dropping a table that is not there changes no table. *)
Lemma izbrisi_ni (t : Tabela) (w : svet) :
  t ∈ pripravi_tabele ->
  tabele (conn w) !! kljuc t = None ->
  izbrisi O t w = (Svet (zabelezi (conn w) (klic_izbrisi t)) (izpis w), Vrni tt).
Proof. intros Ht Hn. rewrite izbrisi_potek by done. by rewrite Hn. Qed.

Lemma ustvari_potek (t : Tabela) (w : svet) :
  t ∈ pripravi_tabele ->
  ustvari O t w
  = let c := zabelezi (conn w) (klic_ustvari t) in
    match tabele (conn w) !! kljuc t with
    | None =>
        (Svet (z_tabelami c (<[kljuc t := nova_tabela t]> (tabele (conn w)))) (izpis w),
         Vrni tt)
    | Some _ => (Svet c (izpis w), Sprozi (OperationalError (TabelaObstaja (ime_niz t))))
    end.
Proof.
  intros Ht. destruct (pripravi_ustvari t Ht) as (sql & Hsql & Hp & Hd).
  destruct w as [[m tx log akt rid] out].
  unfold ustvari, klic_ustvari. rewrite Hsql. simpl.
  unfold vezi, execute, zavrzi, izvedi. rewrite Hp. simpl.
  fold (kljuc t). destruct (m !! kljuc t); [done|].
  rewrite Hd. done.
Qed.

Lemma izprazni_potek (t : Tabela) (w : svet) :
  t ∈ pripravi_tabele ->
  izprazni O t w
  = let c := zabelezi (conn w) (sql_izprazni t, []) in
    match tabele (conn w) !! kljuc t with
    | Some ts =>
        (Svet (z_tabelami (zacni c) (<[kljuc t := brez_vrstic ts]> (tabele (conn w))))
              (izpis w),
         Vrni tt)
    | None => (Svet c (izpis w), Sprozi (OperationalError (NiTabele (ime_niz t))))
    end.
Proof.
  intros Ht. destruct w as [[m tx log akt rid] out].
  unfold izprazni, vezi, execute, zavrzi, izvedi.
  rewrite (pripravi_izprazni t Ht). simpl. fold (kljuc t).
  destruct (m !! kljuc t); [|done].
  unfold zacni. simpl. destruct tx; done.
Qed.

(** What one call of [dodaj_vrstico] does to the state. *)
Lemma dodaj_vrstico_ucinek (t : Tabela) (podatki : slovar (option string))
    (w w' : svet) (r : izid Z) :
  dodaj_vrstico O t podatki w = (w', r) ->
  izpis w' = izpis w
  /\ dnevnik (conn w')
     = dnevnik (conn w) ++ [(besedilo t (keys (brez_None podatki)), brez_None podatki)]
  /\ (t ∈ pripravi_tabele ->
      aktivni (conn w') = aktivni (conn w)
      /\ match r with
         | Vrni _ =>
             exists ts id v,
               tabele (conn w) !! kljuc t = Some ts
               /\ tabele (conn w') = <[kljuc t := z_vrstico ts id v]> (tabele (conn w))
         | Sprozi _ => tabele (conn w') = tabele (conn w)
         end).
Proof.
  unfold dodaj_vrstico, vezi, dvigni, execute, zavrzi, vrni. simpl.
  set (d := brez_None podatki).
  pose proof (izvedi_dnevnik (pogon_okolja O) (conn w) (besedilo t (keys d)) d) as Hlog.
  destruct (izvedi _ _ _ _) as [c rc] eqn:Hiz. simpl in Hlog.
  intros H. split; [destruct rc; by simplify_eq|]. split.
  { destruct rc as [cur|e]; simplify_eq; simpl; [|done].
    unfold sprosti. by destruct (odprt cur). }
  intros Ht. unfold izvedi in Hiz.
  destruct (pripravi_besedilo t (keys d) Ht) as [Hp|(cs & ps & vec & Hp)]; rewrite Hp in Hiz.
  - simplify_eq. done.
  - apply izvedi_insert in Hiz as [Hakt Hiz]. simpl in Hiz, Hakt. fold (kljuc t) in Hiz.
    destruct rc as [cur|e]; simplify_eq; simpl; [|done].
    destruct Hiz as [Hod Hiz]. unfold sprosti. rewrite Hod. done.
Qed.

End Ucinki.

(** ** Dropping, creating and emptying a table *)

Lemma vezi_assoc {A B C} (m : M A) (f : A -> M B) (g : B -> M C) (w : svet) :
  vezi (vezi m f) g w = vezi m (fun a => vezi (f a) g) w.
Proof. unfold vezi. destruct (m w) as [w1 [a|e]]; done. Qed.

Section Tabele.

Variable O : okolje.

(** C7, as amended. On a connection with no statement in progress, for
    each of the five tables, dropping and creating it twice in a row
    raises nothing and ends with the same tables as dropping and creating
    it once: the table is there with its declared columns and no row, and
    every other table is as it was. *)
Theorem izbrisi_ustvari_dvakrat (t : Tabela) (w : svet) :
  t ∈ pripravi_tabele ->
  aktivni (conn w) = 0 ->
  exists w1 w2,
    (izbrisi O t ;;; ustvari O t)%met w = (w1, Vrni tt)
    /\ (izbrisi O t ;;; ustvari O t ;;; izbrisi O t ;;; ustvari O t)%met w = (w2, Vrni tt)
    /\ tabele (conn w2) = tabele (conn w1)
    /\ tabele (conn w2) !! kljuc t = Some (nova_tabela t)
    /\ shema (nova_tabela t) = shema_tabele t
    /\ vrstice (nova_tabela t) = []
    /\ forall k, k <> kljuc t -> tabele (conn w2) !! k = tabele (conn w) !! k.
Proof.
  intros Ht Hakt. destruct w as [[m tx log akt rid] out]. simpl in Hakt. subst akt.
  assert (Hprvi : exists log1,
            (izbrisi O t ;;; ustvari O t)%met (Svet (Povezava m tx log 0 rid) out)
            = (Svet (Povezava (<[kljuc t := nova_tabela t]> (delete (kljuc t) m)) tx log1 0 rid) out,
               Vrni tt)).
  { unfold vezi. rewrite izbrisi_potek by done. simpl.
    destruct (m !! kljuc t) as [ts|] eqn:Hm; simpl.
    - rewrite ustvari_potek by done. simpl. rewrite lookup_delete_eq. eauto.
    - rewrite ustvari_potek by done. simpl. rewrite Hm, (delete_id m) by done. eauto. }
  destruct Hprvi as [log1 H1].
  assert (Hdrugi : exists log2,
            (izbrisi O t ;;; ustvari O t)%met
              (Svet (Povezava (<[kljuc t := nova_tabela t]> (delete (kljuc t) m)) tx log1 0 rid) out)
            = (Svet (Povezava (<[kljuc t := nova_tabela t]> (delete (kljuc t) m)) tx log2 0 rid) out,
               Vrni tt)).
  { unfold vezi. rewrite izbrisi_potek by done. simpl.
    rewrite lookup_insert_eq. simpl.
    rewrite ustvari_potek by done. simpl. rewrite lookup_delete_eq.
    rewrite delete_insert_eq, delete_delete_eq. eauto. }
  destruct Hdrugi as [log2 H2].
  eexists _, _. split; [exact H1|]. split.
  - rewrite <- (vezi_assoc (izbrisi O t) (fun _ => ustvari O t)
                  (fun _ => (izbrisi O t ;;; ustvari O t)%met)).
    unfold vezi at 1. rewrite H1. exact H2.
  - simpl. split; [done|]. split; [apply lookup_insert_eq|]. split; [done|]. split; [done|].
    intros k Hk. rewrite lookup_insert_ne, lookup_delete_ne by done. done.
Qed.

(** C9. [izprazni] on one of the five tables, when the table exists,
    raises nothing (whether or not the table has rows), leaves the table
    with its columns and no row, and leaves every other table as it
    was. *)
Theorem izprazni_okvir (t : Tabela) (w : svet) (ts : tabela_stanje) :
  t ∈ pripravi_tabele ->
  tabele (conn w) !! kljuc t = Some ts ->
  exists w',
    izprazni O t w = (w', Vrni tt)
    /\ (exists ts', tabele (conn w') !! kljuc t = Some ts'
                    /\ shema ts' = shema ts /\ vrstice ts' = [])
    /\ (forall k, k <> kljuc t -> tabele (conn w') !! k = tabele (conn w) !! k)
    /\ izpis w' = izpis w.
Proof.
  intros Ht Hts. rewrite izprazni_potek by done. cbn zeta. rewrite Hts.
  eexists. split; [done|]. simpl. split; [|split; [|done]].
  - exists (brez_vrstic ts). by rewrite lookup_insert_eq.
  - intros k Hk. by rewrite lookup_insert_ne.
Qed.

(** C6, as amended. [Zaloga.ustvari] raises exactly when a table [zaloga]
    is already there; whether the table of the clothes is there plays no
    part. (The table its [REFERENCES] clause names, [oblacila], is none of
    the five tables: the clothes are kept in [oblacilo].) *)
Theorem zaloga_ustvari_brez_oblacil (w : svet) :
  (tabele (conn w) !! "zaloga" = None ->
   exists w', ustvari O Zaloga w = (w', Vrni tt)
              /\ tabele (conn w') = <["zaloga" := nova_tabela Zaloga]> (tabele (conn w)))
  /\ (is_Some (tabele (conn w) !! "zaloga") ->
      exists w', ustvari O Zaloga w
                 = (w', Sprozi (OperationalError (TabelaObstaja "zaloga"))))
  /\ Forall (fun t => kljuc t <> "oblacila") pripravi_tabele.
Proof.
  assert (Ht : Zaloga ∈ pripravi_tabele) by (apply (bool_decide_unpack _); vm_compute; exact I).
  pose proof (ustvari_potek O Zaloga w Ht) as H. cbn zeta in H.
  change (kljuc Zaloga) with "zaloga" in H. split; [|split].
  - intros Hn. rewrite Hn in H. eexists. split; [exact H|done].
  - intros [ts Hs]. rewrite Hs in H. eexists. exact H.
  - apply (bool_decide_unpack _). vm_compute. exact I.
Qed.

End Tabele.

Lemma izbrisi_ustvari_dvakrat_primer :
  exists w1 w2,
    (izbrisi okolje_primer Stranka ;;; ustvari okolje_primer Stranka)%met svet_s_stranko
    = (w1, Vrni tt)
    /\ (izbrisi okolje_primer Stranka ;;; ustvari okolje_primer Stranka ;;;
        izbrisi okolje_primer Stranka ;;; ustvari okolje_primer Stranka)%met svet_s_stranko
       = (w2, Vrni tt)
    /\ tabele (conn w2) = tabele (conn w1).
Proof.
  destruct (izbrisi_ustvari_dvakrat okolje_primer Stranka svet_s_stranko)
    as (w1 & w2 & H1 & H2 & H3 & _).
  - apply (bool_decide_unpack _). vm_compute. exact I.
  - reflexivity.
  - exists w1, w2. split; [exact H1|]. split; [exact H2|exact H3].
Defined.

(** C7 as it is written fails while a query is in progress, as the one
    of [ustvari_bazo_ce_ne_obstaja] is when it calls [izbrisi]: the drop
    of the table that is there raises. *)
Lemma izbrisi_med_poizvedbo :
  aktivni (conn svet_s_poizvedbo) = 1
  /\ tabele (conn svet_s_poizvedbo) !! "stranka" = Some (nova_tabela Stranka)
  /\ (izbrisi okolje_primer Stranka svet_s_poizvedbo).2
     = Sprozi (OperationalError TabelaZaklenjena).
Proof. repeat split; vm_compute; reflexivity. Qed.

Lemma izprazni_okvir_primer :
  exists w', izprazni okolje_primer Stranka svet_s_stranko = (w', Vrni tt).
Proof.
  destruct (izprazni_okvir okolje_primer Stranka svet_s_stranko (nova_tabela Stranka))
    as (w' & H & _).
  - apply (bool_decide_unpack _). vm_compute. exact I.
  - vm_compute. reflexivity.
  - exists w'. exact H.
Defined.

(** C6 as it is written fails: on a new database, with no table of the
    clothes, [Zaloga.ustvari] returns and the table [zaloga] is there. *)
Lemma zaloga_pred_oblacili :
  tabele (conn svet_prazen) !! "oblacilo" = None
  /\ (ustvari okolje_primer Zaloga svet_prazen).2 = Vrni tt
  /\ tabele (conn (ustvari okolje_primer Zaloga svet_prazen).1) !! "zaloga"
     = Some (nova_tabela Zaloga).
Proof. split; [done|]. split; vm_compute; reflexivity. Qed.

Lemma zaloga_ustvari_brez_oblacil_primer :
  exists w', ustvari okolje_primer Zaloga svet_prazen = (w', Vrni tt).
Proof.
  destruct (zaloga_ustvari_brez_oblacil okolje_primer svet_prazen) as [H _].
  destruct H as (w' & H & _); [reflexivity|]. exists w'. exact H.
Defined.

(** ** A record with no value *)

Lemma brez_None_vse_None (podatki : slovar (option string)) :
  Forall (fun kv => kv.2 = None) podatki -> brez_None podatki = [].
Proof.
  intros Hf. unfold brez_None, items.
  replace (filter (fun kv => is_Some kv.2) podatki) with (@nil (string * option string)); [done|].
  induction Hf as [|[k v] l Hn _ IH]; [done|].
  rewrite filter_cons. simpl in *. subst v.
  rewrite decide_False; [done|]. by intros ?%is_Some_None.
Qed.

Lemma pripravi_brez_stolpcev (t : Tabela) :
  t ∈ Tabela_osnova :: pripravi_tabele -> pripravi (besedilo t []) = None.
Proof.
  intros Ht. apply elem_of_cons in Ht as [->|Ht]; [vm_compute; reflexivity|].
  po_tabelah Ht; vm_compute; reflexivity.
Qed.

Section BrezPolj.

Variable O : okolje.

(** C8. With no column [dodajanje] raises nothing and checks nothing: it
    returns the text with two empty lists. The engine reads no statement
    in that text, so [dodaj_vrstico] on a record whose values are all
    [None] gets as far as [execute], which raises the syntax error; no
    table changes. *)
Theorem dodajanje_brez_polj (t : Tabela) (podatki : slovar (option string)) (w : svet) :
  t ∈ Tabela_osnova :: pripravi_tabele ->
  Forall (fun kv => kv.2 = None) podatki ->
  dodajanje t (Some [])
  = Vrni (nl +:+ "            INSERT INTO " +:+ ime_niz t +:+ " ()" +:+ nl
          +:+ "            VALUES ();" +:+ nl +:+ "        ")
  /\ pripravi (besedilo t []) = None
  /\ keys (brez_None podatki) = []
  /\ dodaj_vrstico O t podatki w
     = (Svet (zabelezi (conn w) (besedilo t [], [])) (izpis w),
        Sprozi (OperationalError SintaksnaNapaka)).
Proof.
  intros Ht Hf. split; [done|]. split; [by apply pripravi_brez_stolpcev|].
  rewrite (brez_None_vse_None podatki Hf). split; [done|].
  unfold dodaj_vrstico, vezi, dvigni, execute, zavrzi, vrni, izvedi.
  rewrite (brez_None_vse_None podatki Hf). simpl.
  rewrite (pripravi_brez_stolpcev t Ht). done.
Qed.

End BrezPolj.

Lemma dodajanje_brez_polj_primer :
  dodaj_vrstico okolje_primer Stranka [("first_name", None); ("email", None)] svet_s_stranko
  = (Svet (zabelezi (conn svet_s_stranko) (besedilo Stranka [], [])) (izpis svet_s_stranko),
     Sprozi (OperationalError SintaksnaNapaka)).
Proof.
  refine (proj2 (proj2 (proj2 (dodajanje_brez_polj okolje_primer Stranka
            [("first_name", None); ("email", None)] svet_s_stranko _ _)))).
  - apply (bool_decide_unpack _). vm_compute. exact I.
  - apply (bool_decide_unpack _). vm_compute. exact I.
Defined.

(** ** Importing a source *)

Section Uvoz.

Variable O : okolje.

(** The loop makes its calls in the order of the records and stops at the
    first one that raises. *)
Lemma uvozi_vrstice_dnevnik (t : Tabela) (stolpci : list string)
    (vrstice : list (list string)) (konec : option izjema) (w w' : svet) (r : izid unit) :
  uvozi_vrstice O t stolpci vrstice konec w = (w', r) ->
  izpis w' = izpis w
  /\ exists n,
       n <= length vrstice
       /\ dnevnik (conn w')
          = dnevnik (conn w) ++ (klic_vrstice t stolpci <$> take n vrstice)
       /\ (r = Vrni tt -> n = length vrstice /\ konec = None).
Proof.
  revert w. induction vrstice as [|v vrstice IH]; intros w H; simpl in H.
  - split; [destruct konec; unfold sprozi, vrni in H; by simplify_eq|].
    exists 0. simpl. rewrite app_nil_r.
    destruct konec; unfold sprozi, vrni in H; simplify_eq; done.
  - unfold vezi, klici_dodaj_vrstico in H.
    destruct (decide ("self" ∈ keys (dekodiraj stolpci v))) as [Hself|Hself].
    + unfold sprozi in H. simplify_eq. split; [done|].
      exists 0. simpl. rewrite app_nil_r. split; [lia|]. done.
    + destruct (dodaj_vrstico O t (dekodiraj stolpci v) w) as [w1 r1] eqn:Hd.
      apply dodaj_vrstico_ucinek in Hd as (Hi & Hl & _).
      destruct r1 as [id|e].
      * apply IH in H as (Hi' & n & Hn & Hl' & Hr).
        split; [congruence|]. exists (S n). simpl. split; [lia|].
        split; [|intros Hv; destruct (Hr Hv); split; [lia|done]].
        rewrite Hl', Hl. unfold klic_vrstice at 3. by rewrite <- app_assoc.
      * simplify_eq. split; [done|]. exists 1. simpl. split; [lia|].
        split; [by rewrite Hl|done].
Qed.

(** When the loop over the records of one of the five tables returns,
    every record has become a row of that table. *)
Lemma uvozi_vrstice_tabele (t : Tabela) (stolpci : list string)
    (vrstice : list (list string)) (konec : option izjema) (w w' : svet) :
  t ∈ pripravi_tabele ->
  uvozi_vrstice O t stolpci vrstice konec w = (w', Vrni tt) ->
  (forall k, k <> kljuc t -> tabele (conn w') !! k = tabele (conn w) !! k)
  /\ match tabele (conn w) !! kljuc t with
     | Some ts =>
         exists ts', tabele (conn w') !! kljuc t = Some ts'
                     /\ shema ts' = shema ts
                     /\ length (Sqlite.vrstice ts')
                        = length (Sqlite.vrstice ts) + length vrstice
     | None => vrstice = [] /\ tabele (conn w') !! kljuc t = None
     end.
Proof.
  intros Ht. revert w. induction vrstice as [|v vrstice IH]; intros w H; simpl in H.
  - destruct konec; unfold sprozi, vrni in H; simplify_eq.
    split; [done|]. destruct (tabele (conn w') !! kljuc t) as [ts|]; [|done].
    exists ts. split; [done|]. split; [done|]. simpl. lia.
  - unfold vezi, klici_dodaj_vrstico in H.
    destruct (decide ("self" ∈ keys (dekodiraj stolpci v))) as [Hself|Hself];
      [unfold sprozi in H; simplify_eq|].
    destruct (dodaj_vrstico O t (dekodiraj stolpci v) w) as [w1 r1] eqn:Hd.
    apply dodaj_vrstico_ucinek in Hd as (_ & _ & Ht1). destruct (Ht1 Ht) as [_ Ht2].
    clear Ht1. rename Ht2 into Ht1.
    destruct r1 as [id|e]; [|simplify_eq].
    destruct Ht1 as (ts & rid & vr & Hts & Hw1).
    apply IH in H as [Hframe Hkey]. rewrite Hw1 in Hframe, Hkey.
    rewrite lookup_insert_eq in Hkey. destruct Hkey as (ts' & Hts' & Hsh & Hlen).
    rewrite Hts. split.
    + intros k Hk. rewrite Hframe by done. by rewrite lookup_insert_ne.
    + exists ts'. split; [done|]. split; [done|].
      rewrite Hlen. simpl. rewrite length_app. simpl. lia.
Qed.

(** The names of the call made for a record are names of the header. *)
Lemma imena_klica (stolpci vrstica : list string) :
  Forall (fun s => je_identifikator s = true) stolpci ->
  Forall (fun s => je_identifikator s = true) (keys (brez_None (dekodiraj stolpci vrstica))).
Proof.
  intros Hf. apply Forall_forall. intros k Hin.
  unfold brez_None in Hin. apply (proj1 (keys_comp (filter _ _) k)) in Hin.
  apply list_elem_of_fmap in Hin as (kv & -> & Hin).
  apply list_elem_of_filter in Hin as [_ Hin].
  assert (Hk : kv.1 ∈ keys (dekodiraj stolpci vrstica)).
  { apply list_elem_of_fmap. by exists kv. }
  unfold dekodiraj in Hk. apply (proj1 (keys_comp _ _)) in Hk.
  rewrite pari_vrstice_kljuci in Hk.
  apply (proj1 (Forall_forall _ _) Hf). by apply (subseteq_take (length vrstica)).
Qed.

(** A call of [dodaj_vrstico] that returns has executed an insert the
    engine reads, and the table has one row more. *)
Lemma dodaj_vrstico_vrne (t : Tabela) (podatki : slovar (option string))
    (w w' : svet) (id : Z) :
  t ∈ pripravi_tabele ->
  Forall (fun s => je_identifikator s = true) (keys (brez_None podatki)) ->
  dodaj_vrstico O t podatki w = (w', Vrni id) ->
  vstavi_eno t (besedilo t (keys (brez_None podatki)), brez_None podatki)
  /\ stevilo_vrstic w' (kljuc t) = stevilo_vrstic w (kljuc t) + 1
  /\ (forall k, k <> kljuc t -> tabele (conn w') !! k = tabele (conn w) !! k).
Proof.
  intros Ht Hid Hd. split; [|].
  - split; [done|]. cbn [fst snd].
    destruct (keys (brez_None podatki)) as [|c cs] eqn:Hk.
    + exfalso. revert Hd.
      unfold dodaj_vrstico, vezi, dvigni, execute, zavrzi, vrni, dodajanje, izvedi.
      rewrite Hk, pripravi_brez_stolpcev by (by apply list_elem_of_further). done.
    + by apply pripravi_besedilo_imena.
  - apply dodaj_vrstico_ucinek in Hd as (_ & _ & Hu).
    destruct (Hu Ht) as (_ & ts & rid & v & Hts & Hw). unfold stevilo_vrstic.
    rewrite Hw, lookup_insert_eq, Hts. split.
    + simpl. rewrite length_app. simpl. lia.
    + intros k Hk. by rewrite lookup_insert_ne.
Qed.

(** A call of [dodaj_vrstico] that raises leaves the tables as they
    were. *)
Lemma klici_dodaj_vrstico_sprozi (t : Tabela) (vrstica : slovar (option string))
    (w w' : svet) (e : izjema) :
  t ∈ pripravi_tabele ->
  klici_dodaj_vrstico O t vrstica w = (w', Sprozi e) ->
  tabele (conn w') = tabele (conn w).
Proof.
  intros Ht. unfold klici_dodaj_vrstico.
  destruct (decide ("self" ∈ keys vrstica)).
  - unfold sprozi. by intros [= <- _].
  - intros Hd. apply dodaj_vrstico_ucinek in Hd as (_ & _ & Hu). by destruct (Hu Ht).
Qed.

(** The loop over the records: the calls for the records before the
    first one that raises return, each adding one row; the call that
    raises ends the loop. *)
Lemma uvozi_vrstice_potek (t : Tabela) (stolpci : list string)
    (vrstice : list (list string)) (w w' : svet) (r : izid unit) :
  t ∈ pripravi_tabele ->
  Forall (fun s => je_identifikator s = true) stolpci ->
  uvozi_vrstice O t stolpci vrstice None w = (w', r) ->
  exists n wn,
    n <= length vrstice
    /\ uvozi_vrstice O t stolpci (take n vrstice) None w = (wn, Vrni tt)
    /\ dnevnik (conn wn) = dnevnik (conn w) ++ (klic_vrstice t stolpci <$> take n vrstice)
    /\ Forall (vstavi_eno t) (klic_vrstice t stolpci <$> take n vrstice)
    /\ stevilo_vrstic wn (kljuc t) = stevilo_vrstic w (kljuc t) + n
    /\ (forall k, k <> kljuc t -> tabele (conn wn) !! k = tabele (conn w) !! k)
    /\ match r with
       | Vrni _ => n = length vrstice /\ w' = wn
       | Sprozi e =>
           exists v, vrstice !! n = Some v
             /\ klici_dodaj_vrstico O t (dekodiraj stolpci v) wn = (w', Sprozi e)
             /\ tabele (conn w') = tabele (conn wn)
       end.
Proof.
  intros Ht Hid. revert w. induction vrstice as [|v vrstice IH]; intros w H.
  - simpl in H. unfold vrni in H. injection H as <- <-.
    exists 0, w. simpl. rewrite app_nil_r.
    split; [lia|]. split; [done|]. split; [done|]. split; [done|].
    split; [lia|]. done.
  - cbn [uvozi_vrstice] in H. unfold vezi in H.
    destruct (klici_dodaj_vrstico O t (dekodiraj stolpci v) w) as [w1 [id|e]] eqn:Hk.
    + assert (Hd : dodaj_vrstico O t (dekodiraj stolpci v) w = (w1, Vrni id)).
      { revert Hk. unfold klici_dodaj_vrstico.
        by destruct (decide ("self" ∈ keys (dekodiraj stolpci v))). }
      pose proof Hd as Hlog. apply dodaj_vrstico_ucinek in Hlog as (_ & Hlog & _).
      apply dodaj_vrstico_vrne in Hd as (Hv & Hst & Hfr);
        [|done|by apply imena_klica].
      destruct (IH w1 H) as (n & wn & Hn & Hrun & Hl & Hf & Hs & Hframe & Hr).
      exists (S n), wn. split; [simpl; lia|]. split.
      { cbn [take uvozi_vrstice]. unfold vezi. by rewrite Hk. }
      split.
      { rewrite Hl, Hlog. cbn [take fmap list_fmap]. unfold klic_vrstice at 3.
        by rewrite <- app_assoc. }
      split.
      { cbn [take]. rewrite fmap_cons. by apply Forall_cons. }
      split; [rewrite Hs, Hst; lia|]. split.
      { intros k Hne. by rewrite Hframe, Hfr. }
      destruct r as [[]|e]; [destruct Hr as [-> ->]; done|].
      destruct Hr as (v' & Hv' & Hrest). exists v'. done.
    + injection H as <- <-. exists 0, w. simpl. rewrite app_nil_r.
      split; [lia|]. split; [done|]. split; [done|]. split; [done|].
      split; [lia|]. split; [done|].
      exists v. split; [done|]. split; [done|].
      by apply (klici_dodaj_vrstico_sprozi t (dekodiraj stolpci v) w w1 e).
Qed.

(** C4, as amended. Without a source [uvozi] does nothing. With a source
    of a header of identifiers and N records, [uvozi] on one of the five
    tables calls [dodaj_vrstico] for the records in their order, each
    with the decoded record, and stops at the first call that raises
    (whatever the exception: an integrity error, the syntax error of a
    record with no value, a column the table does not have): the calls
    for the records before it have returned, each has executed one
    insert of one row and the table has one row more for each, the call
    that raised has left the tables as they were, its exception is the
    one of [uvozi], and no later record is touched. When [uvozi]
    returns, it has made exactly N calls and the table has exactly N rows
    more; the other tables are as they were. *)
Theorem uvozi_potek (t : Tabela) (encoding : string) (w : svet) :
  (podatki t = None -> uvozi O t encoding w = (w, Vrni tt))
  /\ forall pot stolpci vrstice w' r,
       podatki t = Some pot ->
       odpri O pot encoding = Vrni (Tok (stolpci :: vrstice) None) ->
       t ∈ pripravi_tabele ->
       Forall (fun s => je_identifikator s = true) stolpci ->
       uvozi O t encoding w = (w', r) ->
       exists n wn,
         n <= length vrstice
         /\ uvozi_vrstice O t stolpci (take n vrstice) None w = (wn, Vrni tt)
         /\ dnevnik (conn wn)
            = dnevnik (conn w) ++ (klic_vrstice t stolpci <$> take n vrstice)
         /\ Forall (vstavi_eno t) (klic_vrstice t stolpci <$> take n vrstice)
         /\ stevilo_vrstic wn (kljuc t) = stevilo_vrstic w (kljuc t) + n
         /\ (forall k, k <> kljuc t -> tabele (conn wn) !! k = tabele (conn w) !! k)
         /\ match r with
            | Vrni _ => n = length vrstice /\ w' = wn
            | Sprozi e =>
                exists v, vrstice !! n = Some v
                  /\ klici_dodaj_vrstico O t (dekodiraj stolpci v) wn = (w', Sprozi e)
                  /\ tabele (conn w') = tabele (conn wn)
            end.
Proof.
  split.
  - intros Hp. unfold uvozi. by rewrite Hp.
  - intros pot stolpci vrstice w' r Hp Ho Ht Hid H. unfold uvozi in H.
    rewrite Hp, Ho in H. cbn [zapisi napaka] in H.
    by apply uvozi_vrstice_potek.
Qed.

End Uvoz.

Lemma uvozi_potek_primer :
  stevilo_vrstic (uvozi okolje_primer Stranka "UTF-8" svet_s_stranko).1 "stranka"
  = stevilo_vrstic svet_s_stranko "stranka" + 2.
Proof.
  destruct (uvozi_potek okolje_primer Stranka "UTF-8" svet_s_stranko) as [_ H].
  destruct (H "podatki/stranka.csv" glava_stranke
              [["Ana"; "Kos"; "ana@x.io"; "F"; "1.2.3.4"];
               ["Bo"; "Dan"; "bo@x.io"; "M"; "5.6.7.8"]]
              (uvozi okolje_primer Stranka "UTF-8" svet_s_stranko).1 (Vrni tt))
    as (n & wn & _ & _ & _ & _ & Hs & _ & Hn & Hw).
  - reflexivity.
  - reflexivity.
  - apply (bool_decide_unpack _). vm_compute. exact I.
  - apply (bool_decide_unpack _). vm_compute. exact I.
  - vm_compute. reflexivity.
  - rewrite Hw. rewrite Hn in Hs. exact Hs.
Defined.

(** C4 as it is written fails on a source of [stranka] with the header
    and two records, the first with only empty fields, the second full:
    no row breaks a constraint (no row reaches the table), yet the first
    call raises the syntax error, the second record is never reached, and
    the table has no row. *)
Lemma uvozi_prazno_polje :
  odpri okolje_prazno_polje "podatki/stranka.csv" "UTF-8"
  = Vrni (Tok [glava_stranke;
               [EmptyString; EmptyString; EmptyString; EmptyString; EmptyString];
               ["Ana"; "Kos"; "ana@x.io"; "F"; "1.2.3.4"]] None)
  /\ (uvozi okolje_prazno_polje Stranka "UTF-8" svet_s_stranko).2
     = Sprozi (OperationalError SintaksnaNapaka)
  /\ stevilo_vrstic (uvozi okolje_prazno_polje Stranka "UTF-8" svet_s_stranko).1 "stranka" = 0
  /\ length (dnevnik (conn (uvozi okolje_prazno_polje Stranka "UTF-8" svet_s_stranko).1))
     = length (dnevnik (conn svet_s_stranko)) + 1.
Proof. split; [done|]. repeat split; vm_compute; reflexivity. Qed.

(** ** Building the database *)

Ltac v_tabelah := apply (bool_decide_unpack _); vm_compute; exact I.

Lemma podatki_tabel (t : Tabela) :
  t ∈ pripravi_tabele -> exists pot, podatki t = Some pot.
Proof. intros Ht. po_tabelah Ht; eexists; reflexivity. Qed.

Section Baza.

Variable O : okolje.

(** Every call [uvozi] makes is the call for some record. *)
Lemma uvozi_dnevnik (t : Tabela) (encoding : string) (w w' : svet) (r : izid unit) :
  uvozi O t encoding w = (w', r) ->
  izpis w' = izpis w
  /\ exists klici,
       dnevnik (conn w') = dnevnik (conn w) ++ klici
       /\ Forall (fun k => exists stolpci vrstica, k = klic_vrstice t stolpci vrstica) klici.
Proof.
  unfold uvozi. intros H.
  assert (Hnic : forall e, (w', r) = (w, e) ->
            izpis w' = izpis w
            /\ exists klici, dnevnik (conn w') = dnevnik (conn w) ++ klici
                 /\ Forall (fun k => exists stolpci vrstica,
                                       k = klic_vrstice t stolpci vrstica) klici).
  { intros e He. simplify_eq. split; [done|]. exists []. by rewrite app_nil_r. }
  destruct (podatki t) as [pot|]; [|by eapply Hnic].
  destruct (odpri O pot encoding) as [[zap nap]|e]; [|by eapply Hnic].
  simpl in H. destruct zap as [|stolpci vrstice]; [by eapply Hnic|].
  apply uvozi_vrstice_dnevnik in H as (Hi & n & _ & Hl & _).
  split; [done|]. eexists. split; [exact Hl|].
  apply Forall_fmap, Forall_true. intros v. simpl. eauto.
Qed.

Lemma uvozi_podatke_dnevnik (l : list Tabela) (w w' : svet) (r : izid unit) :
  uvozi_podatke O l w = (w', r) ->
  exists klici,
    dnevnik (conn w') = dnevnik (conn w) ++ klici
    /\ Forall (fun k => exists t stolpci vrstica,
                 t ∈ l /\ k = klic_vrstice t stolpci vrstica) klici.
Proof.
  revert w. induction l as [|t l IH]; intros w H.
  - unfold uvozi_podatke in H. simpl in H. unfold vrni in H. simplify_eq.
    exists []. by rewrite app_nil_r.
  - unfold uvozi_podatke in H. simpl in H. unfold vezi, print in H. simpl in H.
    destruct (uvozi O t "UTF-8" _) as [w1 r1] eqn:Hu.
    apply uvozi_dnevnik in Hu as (_ & k1 & Hl1 & Hf1). simpl in Hl1.
    assert (Hf1' : Forall (fun k => exists t0 stolpci vrstica,
                     t0 ∈ t :: l /\ k = klic_vrstice t0 stolpci vrstica) k1).
    { eapply Forall_impl; [exact Hf1|]. intros k (s & v & ->).
      exists t, s, v. split; [by left|done]. }
    destruct r1 as [[]|e].
    + apply IH in H as (k2 & Hl2 & Hf2). exists (k1 ++ k2).
      split; [by rewrite Hl2, Hl1, app_assoc|].
      apply Forall_app. split; [done|].
      eapply Forall_impl; [exact Hf2|]. intros k (t0 & s & v & Ht0 & ->).
      exists t0, s, v. split; [by right|done].
    + simplify_eq. exists k1. done.
Qed.

(** When the import of a list of tables returns, every table of the list
    has the records of its source as new rows. *)
Lemma uvozi_podatke_tabele (l : list Tabela) (w w' : svet) :
  (forall t, t ∈ l -> t ∈ pripravi_tabele) ->
  NoDup (kljuc <$> l) ->
  uvozi_podatke O l w = (w', Vrni tt) ->
  (forall k, k ∉ kljuc <$> l -> tabele (conn w') !! k = tabele (conn w) !! k)
  /\ forall t ts,
       t ∈ l -> tabele (conn w) !! kljuc t = Some ts ->
       exists pot stolpci vrstice ts',
         podatki t = Some pot
         /\ odpri O pot "UTF-8" = Vrni (Tok (stolpci :: vrstice) None)
         /\ tabele (conn w') !! kljuc t = Some ts'
         /\ shema ts' = shema ts
         /\ length (Sqlite.vrstice ts') = length (Sqlite.vrstice ts) + length vrstice.
Proof.
  revert w. induction l as [|t l IH]; intros w Hl Hnd H.
  - unfold uvozi_podatke in H. simpl in H. unfold vrni in H. simplify_eq.
    split; [done|]. intros t ts Ht. by apply elem_of_nil in Ht.
  - rewrite fmap_cons in Hnd. apply NoDup_cons in Hnd as [Hk Hnd].
    assert (Ht : t ∈ pripravi_tabele) by (apply Hl; by left).
    assert (Hl' : forall t0, t0 ∈ l -> t0 ∈ pripravi_tabele) by (intros t0 ?; apply Hl; by right).
    unfold uvozi_podatke in H. simpl in H. unfold vezi, print in H. simpl in H.
    destruct (uvozi O t "UTF-8" _) as [w1 r1] eqn:Hu.
    destruct r1 as [[]|e]; [|simplify_eq].
    apply (IH w1 Hl' Hnd) in H as [Hframe Hkeys].
    unfold uvozi in Hu. destruct (podatki_tabel t Ht) as [pot Hpot]. rewrite Hpot in Hu.
    destruct (odpri O pot "UTF-8") as [[zap nap]|e] eqn:Ho; [|unfold sprozi in Hu; simplify_eq].
    simpl in Hu. destruct zap as [|stolpci vrs]; [unfold sprozi in Hu; simplify_eq|].
    pose proof Hu as Hu'. apply uvozi_vrstice_dnevnik in Hu' as (_ & n & _ & _ & Hkon).
    destruct (Hkon eq_refl) as [_ Hnap]. clear Hkon. subst nap.
    apply uvozi_vrstice_tabele in Hu as [Hf1 Hk1]; [|done]. simpl in Hf1, Hk1.
    split.
    + intros k Hnk. rewrite fmap_cons in Hnk. apply not_elem_of_cons in Hnk as [Hne Hnk].
      rewrite Hframe by done. by apply Hf1.
    + intros t0 ts Ht0 Hts. apply elem_of_cons in Ht0 as [->|Ht0].
      * rewrite Hts in Hk1. destruct Hk1 as (ts' & Hts' & Hsh & Hlen).
        exists pot, stolpci, vrs, ts'. rewrite Hframe by done. done.
      * assert (Hne : kljuc t0 <> kljuc t).
        { intros Heq. apply Hk. rewrite <- Heq. apply list_elem_of_fmap. by exists t0. }
        apply Hkeys; [done|]. rewrite Hf1 by done. done.
Qed.

Lemma lookup_ustvarjene_drugje (l : list Tabela) (m : gmap string tabela_stanje) (k : string) :
  k ∉ kljuc <$> l -> ustvarjene l m !! k = m !! k.
Proof.
  unfold ustvarjene. revert m. induction l as [|t l IH]; intros m Hk; simpl; [done|].
  rewrite fmap_cons in Hk. apply not_elem_of_cons in Hk as [Hne Hk].
  rewrite IH by done. by apply lookup_insert_ne.
Qed.

Lemma lookup_ustvarjene (l : list Tabela) (m : gmap string tabela_stanje) (t : Tabela) :
  NoDup (kljuc <$> l) -> t ∈ l -> ustvarjene l m !! kljuc t = Some (nova_tabela t).
Proof.
  unfold ustvarjene. revert m. induction l as [|t0 l IH]; intros m Hnd Ht; simpl.
  - by apply elem_of_nil in Ht.
  - rewrite fmap_cons in Hnd. apply NoDup_cons in Hnd as [Hk Hnd].
    apply elem_of_cons in Ht as [->|Ht]; [|by apply IH].
    change (ustvarjene l (<[kljuc t0:=nova_tabela t0]> m) !! kljuc t0 = Some (nova_tabela t0)).
    rewrite lookup_ustvarjene_drugje by done. apply lookup_insert_eq.
Qed.

(** The import leaves no statement in progress that was not in progress
    before. *)
Lemma uvozi_vrstice_aktivni (t : Tabela) (stolpci : list string)
    (vrstice : list (list string)) (konec : option izjema) (w w' : svet) (r : izid unit) :
  t ∈ pripravi_tabele ->
  uvozi_vrstice O t stolpci vrstice konec w = (w', r) ->
  aktivni (conn w') = aktivni (conn w).
Proof.
  intros Ht. revert w. induction vrstice as [|v vrstice IH]; intros w H; simpl in H.
  - destruct konec; unfold sprozi, vrni in H; by simplify_eq.
  - unfold vezi, klici_dodaj_vrstico in H.
    destruct (decide ("self" ∈ keys (dekodiraj stolpci v))) as [Hself|Hself];
      [unfold sprozi in H; by simplify_eq|].
    destruct (dodaj_vrstico O t (dekodiraj stolpci v) w) as [w1 r1] eqn:Hd.
    apply dodaj_vrstico_ucinek in Hd as (_ & _ & Hd). destruct (Hd Ht) as [Hakt _].
    destruct r1 as [id|e]; [|by simplify_eq].
    apply IH in H. congruence.
Qed.

Lemma uvozi_podatke_aktivni (l : list Tabela) (w w' : svet) (r : izid unit) :
  (forall t, t ∈ l -> t ∈ pripravi_tabele) ->
  uvozi_podatke O l w = (w', r) ->
  aktivni (conn w') = aktivni (conn w).
Proof.
  revert w. induction l as [|t l IH]; intros w Hl H.
  - unfold uvozi_podatke in H. simpl in H. unfold vrni in H. by simplify_eq.
  - unfold uvozi_podatke in H. simpl in H. unfold vezi, print in H. simpl in H.
    destruct (uvozi O t "UTF-8" _) as [w1 r1] eqn:Hu.
    assert (Hakt : aktivni (conn w1) = aktivni (conn w)).
    { unfold uvozi in Hu. destruct (podatki t) as [pot|]; [|unfold vrni in Hu; by simplify_eq].
      destruct (odpri O pot "UTF-8") as [[zap nap]|e]; [|unfold sprozi in Hu; by simplify_eq].
      simpl in Hu. destruct zap as [|stolpci vrs]; [unfold sprozi in Hu; by simplify_eq|].
      apply uvozi_vrstice_aktivni in Hu; [done|]. apply Hl. by left. }
    destruct r1 as [[]|e]; [|by simplify_eq].
    apply IH in H; [congruence|]. intros t0 ?. apply Hl. by right.
Qed.

(** When none of the tables of the list is there, [izbrisi_tabele] only
    adds its calls to the log. *)
Lemma izbrisi_tabele_ni (l : list Tabela) (w : svet) :
  (forall t, t ∈ l -> t ∈ pripravi_tabele) ->
  (forall t, t ∈ l -> tabele (conn w) !! kljuc t = None) ->
  izbrisi_tabele O l w
  = (Svet (Povezava (tabele (conn w)) (transakcija (conn w))
                    (dnevnik (conn w) ++ (klic_izbrisi <$> l))
                    (aktivni (conn w)) (zadnji_rowid (conn w)))
          (izpis w),
     Vrni tt).
Proof.
  revert w. induction l as [|t l IH]; intros w Hl Hn.
  - destruct w as [[m tx log akt rid] out]. unfold izbrisi_tabele, vrni. simpl.
    by rewrite app_nil_r.
  - unfold izbrisi_tabele in *. cbn [za_vsak]. unfold vezi.
    rewrite (izbrisi_ni O t w); [|apply Hl; by left|apply Hn; by left].
    rewrite IH.
    + simpl. by rewrite <- app_assoc.
    + intros t0 ?. apply Hl. by right.
    + intros t0 ?. simpl. apply Hn. by right.
Qed.

(** While a statement is in progress, [izbrisi_tabele] over a list that
    holds a table that is there raises at the first such table; no table
    has changed. *)
Lemma izbrisi_tabele_zaklenjena (l : list Tabela) (w : svet) :
  (forall t, t ∈ l -> t ∈ pripravi_tabele) ->
  aktivni (conn w) <> 0 ->
  (exists t, t ∈ l /\ is_Some (tabele (conn w) !! kljuc t)) ->
  exists log',
    izbrisi_tabele O l w
    = (Svet (Povezava (tabele (conn w)) (transakcija (conn w)) log'
                      (aktivni (conn w)) (zadnji_rowid (conn w)))
            (izpis w),
       Sprozi (OperationalError TabelaZaklenjena)).
Proof.
  revert w. induction l as [|t l IH]; intros w Hl Hakt (t0 & Ht0 & Hs).
  - by apply elem_of_nil in Ht0.
  - unfold izbrisi_tabele in *. cbn [za_vsak]. unfold vezi.
    rewrite izbrisi_potek by (apply Hl; by left). cbn zeta.
    destruct (tabele (conn w) !! kljuc t) as [ts|] eqn:Hts.
    + rewrite bool_decide_eq_false_2 by done.
      destruct w as [[m tx log akt rid] out]. simpl. eauto.
    + apply elem_of_cons in Ht0 as [->|Ht0]; [rewrite Hts in Hs; by destruct Hs|].
      destruct (IH (Svet (zabelezi (conn w) (klic_izbrisi t)) (izpis w))) as [log' ->].
      * intros t1 ?. apply Hl. by right.
      * done.
      * exists t0. done.
      * destruct w as [[m tx log akt rid] out]. simpl. eauto.
Qed.

Lemma ustvari_tabele_potek (l : list Tabela) (w : svet) :
  (forall t, t ∈ l -> t ∈ pripravi_tabele) ->
  NoDup (kljuc <$> l) ->
  (forall t, t ∈ l -> tabele (conn w) !! kljuc t = None) ->
  ustvari_tabele O l w
  = (Svet (Povezava (ustvarjene l (tabele (conn w))) (transakcija (conn w))
                    (dnevnik (conn w) ++ (klic_ustvari <$> l))
                    (aktivni (conn w)) (zadnji_rowid (conn w)))
          (izpis w),
     Vrni tt).
Proof.
  revert w. induction l as [|t l IH]; intros w Hl Hnd Hn.
  - destruct w as [[m tx log akt rid] out]. unfold ustvari_tabele, ustvarjene, vrni. simpl.
    by rewrite app_nil_r.
  - rewrite fmap_cons in Hnd. apply NoDup_cons in Hnd as [Hk Hnd].
    unfold ustvari_tabele in *. cbn [za_vsak]. unfold vezi.
    rewrite ustvari_potek by (apply Hl; by left). cbn zeta.
    rewrite Hn by (by left).
    rewrite IH.
    + simpl. by rewrite <- app_assoc.
    + intros t0 ?. apply Hl. by right.
    + done.
    + intros t0 Ht0. simpl. rewrite lookup_insert_ne; [apply Hn; by right|].
      intros Heq. apply Hk. rewrite Heq. apply list_elem_of_fmap. by exists t0.
Qed.

Lemma pripravi_obstoj : pripravi sql_obstoj = Some (SSelect true "sqlite_master", false).
Proof. vm_compute. reflexivity. Qed.

(** The query always returns, and its cursor stays in progress. *)
Lemma obstoj_potek (w : svet) :
  execute O sql_obstoj [] w
  = (Svet (Povezava (tabele (conn w)) (transakcija (conn w))
                    (dnevnik (conn w) ++ [(sql_obstoj, [])])
                    (S (aktivni (conn w))) (zadnji_rowid (conn w)))
          (izpis w),
     Vrni (Kazalec (zadnji_rowid (conn w)) true)).
Proof. unfold execute, izvedi. rewrite pripravi_obstoj. reflexivity. Qed.

(** On a database with none of the five tables [ustvari_bazo] gets as far
    as the import, with the five tables new and empty. *)
Lemma ustvari_bazo_potek (w : svet) :
  (forall t, t ∈ pripravi_tabele -> tabele (conn w) !! kljuc t = None) ->
  ustvari_bazo O w
  = uvozi_podatke O pripravi_tabele
      (Svet (Povezava (ustvarjene pripravi_tabele (tabele (conn w)))
                      (transakcija (conn w))
                      (dnevnik (conn w) ++ (klic_izbrisi <$> pripravi_tabele)
                       ++ (klic_ustvari <$> pripravi_tabele))
                      (aktivni (conn w)) (zadnji_rowid (conn w)))
            (izpis w)).
Proof.
  intros Hn. unfold ustvari_bazo, vezi. rewrite izbrisi_tabele_ni by done.
  rewrite ustvari_tabele_potek.
  - simpl. by rewrite <- app_assoc.
  - done.
  - apply kljuci_razlicni.
  - intros t Ht. cbn [conn tabele]. by apply Hn.
Qed.

(** The whole run in terms of [ustvari_bazo]. *)
Lemma ustvari_bazo_ce_ne_obstaja_razvoj (w : svet) :
  ustvari_bazo_ce_ne_obstaja O w
  = match ustvari_bazo O
            (Svet (Povezava (tabele (conn w)) (transakcija (conn w))
                            (dnevnik (conn w) ++ [(sql_obstoj, [])])
                            (S (aktivni (conn w))) (zadnji_rowid (conn w)))
                  (izpis w)) with
    | (w', Vrni _) =>
        (Svet (sprosti (commit (conn w')) (Kazalec (zadnji_rowid (conn w)) true)) (izpis w'),
         Vrni tt)
    | (w', Sprozi e) => (Svet (rollback (conn w')) (izpis w'), Sprozi e)
    end.
Proof.
  unfold ustvari_bazo_ce_ne_obstaja, s_povezavo, vezi. rewrite obstoj_potek.
  destruct (ustvari_bazo O _) as [w' [[]|e]]; done.
Qed.

(** The first start: on a database with none of the five tables the run
    logs the query, the five drops and the five creates, in the order of
    the list, and then the inserts of the import; when it returns, each
    of the five tables has the columns its statement declares and
    exactly the records of its source as rows, and no statement is left
    in progress. *)
Lemma ustvari_bazo_ce_ne_obstaja_prvic (w : svet) :
  (forall t, t ∈ pripravi_tabele -> tabele (conn w) !! kljuc t = None) ->
  (exists ostalo,
     dnevnik (conn (ustvari_bazo_ce_ne_obstaja O w).1)
     = dnevnik (conn w) ++ [(sql_obstoj, [])]
       ++ (klic_izbrisi <$> pripravi_tabele)
       ++ (klic_ustvari <$> pripravi_tabele) ++ ostalo
     /\ Forall (fun k => exists t stolpci vrstica,
                  t ∈ pripravi_tabele /\ k = klic_vrstice t stolpci vrstica) ostalo)
  /\ ((ustvari_bazo_ce_ne_obstaja O w).2 = Vrni tt ->
      aktivni (conn (ustvari_bazo_ce_ne_obstaja O w).1) = aktivni (conn w)
      /\ forall t, t ∈ pripravi_tabele ->
           exists pot stolpci vrstice ts,
             podatki t = Some pot
             /\ odpri O pot "UTF-8" = Vrni (Tok (stolpci :: vrstice) None)
             /\ tabele (conn (ustvari_bazo_ce_ne_obstaja O w).1) !! kljuc t = Some ts
             /\ shema ts = shema_tabele t
             /\ length (Sqlite.vrstice ts) = length vrstice).
Proof.
  intros Hn. rewrite ustvari_bazo_ce_ne_obstaja_razvoj.
  rewrite ustvari_bazo_potek by done.
  destruct w as [[m tx log akt rid] out].
  cbn [conn izpis tabele transakcija dnevnik aktivni zadnji_rowid].
  match goal with |- context [uvozi_podatke O pripravi_tabele ?w0] => set (wu := w0) end.
  destruct (uvozi_podatke O pripravi_tabele wu) as [w3 r3] eqn:Hu.
  split.
  - apply uvozi_podatke_dnevnik in Hu as (klici & Hl & Hf).
    exists klici. split; [|done].
    assert (Hd : dnevnik (conn w3)
                 = log ++ [(sql_obstoj, [])] ++ (klic_izbrisi <$> pripravi_tabele)
                   ++ (klic_ustvari <$> pripravi_tabele) ++ klici).
    { rewrite Hl. subst wu. cbn [conn dnevnik]. by rewrite <- !app_assoc. }
    destruct r3 as [[]|e]; cbn [fst conn dnevnik commit sprosti odprt]; [done|].
    unfold rollback. destruct (transakcija (conn w3)); done.
  - destruct r3 as [[]|e]; [|discriminate]. intros _.
    pose proof Hu as Hakt. apply uvozi_podatke_aktivni in Hakt; [|done].
    apply uvozi_podatke_tabele in Hu as [_ Hk]; [|done|apply kljuci_razlicni].
    cbn [fst conn commit sprosti odprt tabele aktivni].
    split; [rewrite Hakt; subst wu; done|]. intros t Ht.
    destruct (Hk t (nova_tabela t) Ht) as (pot & stolpci & vrstice & ts' & H1 & H2 & H3 & H4 & H5).
    { subst wu. cbn [conn tabele]. apply lookup_ustvarjene; [apply kljuci_razlicni|done]. }
    exists pot, stolpci, vrstice, ts'.
    split; [done|]. split; [done|]. split; [done|]. split; [done|]. by rewrite H5.
Qed.

(** C5, at the input on which it fails. When one of the five tables is
    there, the run raises at the first drop of such a table: the cursor
    of the query is still in progress. Nothing is dropped, created or
    imported; the tables are the ones before the run (the ones of the
    start of the open transaction, if there was one). *)
Theorem ustvari_bazo_ce_ne_obstaja_zaklenjena (w : svet) :
  (exists t, t ∈ pripravi_tabele /\ is_Some (tabele (conn w) !! kljuc t)) ->
  (ustvari_bazo_ce_ne_obstaja O w).2 = Sprozi (OperationalError TabelaZaklenjena)
  /\ tabele (conn (ustvari_bazo_ce_ne_obstaja O w).1)
     = default (tabele (conn w)) (transakcija (conn w))
  /\ izpis (ustvari_bazo_ce_ne_obstaja O w).1 = izpis w.
Proof.
  intros Hs. rewrite ustvari_bazo_ce_ne_obstaja_razvoj.
  unfold ustvari_bazo, vezi.
  destruct (izbrisi_tabele_zaklenjena pripravi_tabele
              (Svet (Povezava (tabele (conn w)) (transakcija (conn w))
                              (dnevnik (conn w) ++ [(sql_obstoj, [])])
                              (S (aktivni (conn w))) (zadnji_rowid (conn w)))
                    (izpis w))) as [log' ->]; [done|done|done|].
  simpl. unfold rollback. simpl.
  destruct (transakcija (conn w)); done.
Qed.

End Baza.

Lemma ustvari_bazo_ce_ne_obstaja_zaklenjena_primer :
  (ustvari_bazo_ce_ne_obstaja okolje_trgovina svet_po_zagonu).2
  = Sprozi (OperationalError TabelaZaklenjena).
Proof.
  refine (proj1 (ustvari_bazo_ce_ne_obstaja_zaklenjena okolje_trgovina svet_po_zagonu _)).
  exists Stranka. split.
  - apply (bool_decide_unpack _). vm_compute. exact I.
  - apply (bool_decide_unpack _). vm_compute. exact I.
Defined.

(** The script started on a new database returns, with the two customers
    of the source in their table; started again on what it left, it
    raises at the first drop. *)
Lemma zagon_skripte_primer :
  (skripta okolje_trgovina svet_prazen).2 = Vrni tt
  /\ stevilo_vrstic svet_po_zagonu "stranka" = 2
  /\ (skripta okolje_trgovina svet_po_zagonu).2
     = Sprozi (OperationalError TabelaZaklenjena).
Proof. repeat split; vm_compute; reflexivity. Qed.

(** * Further properties *)

(** ** A record of the source, from the fields to the call *)

(** The fields of a record that are not empty, with their columns. *)
Lemma filter_pari_vrstice (stolpci vrstica : list string) :
  filter (fun kv : string * option string => is_Some kv.2) (pari_vrstice stolpci vrstica)
  = (fun kv : string * string => (kv.1, Some kv.2))
      <$> filter (fun kv : string * string => kv.2 <> EmptyString) (zip stolpci vrstica).
Proof.
  unfold pari_vrstice.
  induction (zip stolpci vrstica) as [|[k v] l IH]; [done|].
  rewrite fmap_cons, (filter_cons _ (k, v)), filter_cons. simpl.
  destruct (decide (v = EmptyString)) as [->|Hv].
  - rewrite prazno_v_None_prazno.
    rewrite decide_False by (intros [? ?]; done).
    rewrite decide_False by (intros H; by apply H). exact IH.
  - rewrite prazno_v_None_drugo by done.
    rewrite decide_True by done. rewrite decide_True by done.
    rewrite fmap_cons. simpl. by rewrite IH.
Qed.

Section Zapis.

Variable O : okolje.

(** X1. For a header without repeated names that does not name [self],
    the call [uvozi] makes for a record executes one statement, which
    names exactly the columns whose field is not empty, in the order of
    the header, and binds each to its field: an empty field is left out
    of the statement and of the bindings, and so is a column the record
    is too short for. *)
Theorem uvozi_zapis_neprazna_polja (t : Tabela) (stolpci vrstica : list string) (w : svet) :
  NoDup stolpci ->
  "self" ∉ stolpci ->
  klic_vrstice t stolpci vrstica
  = (besedilo t (filter (fun kv : string * string => kv.2 <> EmptyString)
                        (zip stolpci vrstica)).*1,
     (fun kv : string * string => (kv.1, Some kv.2))
       <$> filter (fun kv : string * string => kv.2 <> EmptyString) (zip stolpci vrstica))
  /\ dnevnik (conn (klici_dodaj_vrstico O t (dekodiraj stolpci vrstica) w).1)
     = dnevnik (conn w) ++ [klic_vrstice t stolpci vrstica].
Proof.
  intros Hnd Hself.
  assert (Hp : NoDup (pari_vrstice stolpci vrstica).*1).
  { rewrite pari_vrstice_kljuci.
    exact (sublist_NoDup _ _ Hnd (sublist_take _ _)). }
  assert (Hd : dekodiraj stolpci vrstica = pari_vrstice stolpci vrstica).
  { unfold dekodiraj. by apply comp_nodup. }
  split.
  - unfold klic_vrstice.
    rewrite brez_None_filter by (rewrite Hd; exact Hp).
    rewrite Hd, filter_pari_vrstice. f_equal. f_equal.
    unfold keys. rewrite <- list_fmap_compose. done.
  - unfold klici_dodaj_vrstico. rewrite decide_False.
    + destruct (dodaj_vrstico O t (dekodiraj stolpci vrstica) w) as [w' r] eqn:Hdv.
      by apply dodaj_vrstico_ucinek in Hdv as (_ & Hlog & _).
    + rewrite Hd. unfold keys. rewrite pari_vrstice_kljuci.
      intros Hin. apply Hself. by apply (subseteq_take (length vrstica)).
Qed.

End Zapis.

Lemma uvozi_zapis_neprazna_polja_primer :
  klic_vrstice Kosarica ["product_id"; "discount"] ["o1"; EmptyString]
  = (besedilo Kosarica ["product_id"], [("product_id", Some "o1")]).
Proof.
  refine (eq_trans (proj1 (uvozi_zapis_neprazna_polja okolje_primer Kosarica
                             ["product_id"; "discount"] ["o1"; EmptyString] svet_prazen _ _)) _).
  - apply (bool_decide_unpack _). vm_compute. exact I.
  - apply (bool_decide_unpack _). vm_compute. exact I.
  - reflexivity.
Defined.

(** ** Storing a row *)



Lemma izvedi_pripravljen (P : pogon) (c : povezava) (sql : string)
    (par : slovar (option string)) (st : stavek) (vec : bool) :
  pripravi sql = Some (st, vec) ->
  izvedi P c sql par = izvedi_stavek P (zabelezi c (sql, par)) st vec par.
Proof. intros H. unfold izvedi. by rewrite H. Qed.

Section Vrstica.

Variable O : okolje.




End Vrstica.



(** ** Reading a source: the edges *)

Section Robovi.

Variable O : okolje.

(** X5. A header that names a column [self] makes [uvozi] raise
    [TypeError] at the first record that reaches this column: the name
    collides with the receiver of [dodaj_vrstico], nothing is executed
    and the state stays as it was. *)
Theorem uvozi_stolpec_self (t : Tabela) (encoding pot : string) (stolpci vrstica : list string)
    (ostale : list (list string)) (konec : option izjema) (w : svet) :
  podatki t = Some pot ->
  odpri O pot encoding = Vrni (Tok (stolpci :: vrstica :: ostale) konec) ->
  "self" ∈ take (length vrstica) stolpci ->
  uvozi O t encoding w = (w, Sprozi TypeError).
Proof.
  intros Hp Ho Hself. unfold uvozi. rewrite Hp, Ho. simpl.
  unfold vezi, klici_dodaj_vrstico.
  rewrite decide_True; [done|].
  unfold dekodiraj. apply keys_comp. by rewrite pari_vrstice_kljuci.
Qed.

End Robovi.

Lemma uvozi_stolpec_self_primer :
  uvozi (Okolje pogon_primer (fun _ _ => Vrni (Tok [["self"; "email"]; ["1"; "a@x.io"]] None)))
        Stranka "UTF-8" svet_s_stranko
  = (svet_s_stranko, Sprozi TypeError).
Proof.
  refine (uvozi_stolpec_self
            (Okolje pogon_primer (fun _ _ => Vrni (Tok [["self"; "email"]; ["1"; "a@x.io"]] None)))
            Stranka "UTF-8" "podatki/stranka.csv" ["self"; "email"] ["1"; "a@x.io"] [] None
            svet_s_stranko _ _ _).
  - reflexivity.
  - reflexivity.
  - apply (bool_decide_unpack _). vm_compute. exact I.
Defined.

(** ** What an import keeps *)

(** An insert keeps the tables a rollback leads to, and the columns of
    every table. *)
Lemma izvedi_insert_ohrani (P : pogon) (c c' : povezava) (t : string) (cs ps : list string)
    (vec : bool) (par : slovar (option string)) (r : izid kazalec) :
  izvedi_stavek P c (SInsert t cs ps) vec par = (c', r) ->
  tabele (rollback c') = tabele (rollback c)
  /\ shema <$> tabele c' = shema <$> tabele c
  /\ (forall k, k <> mala t -> tabele c' !! k = tabele c !! k)
  /\ match r with Vrni cur => odprt cur = false | Sprozi _ => True end.
Proof.
  destruct c as [m [tx|] log akt rid].
  all: unfold izvedi_stavek, po_vstavljanju, zacni, rollback; simpl.
  all: intros H; repeat case_match; simplify_eq; simpl in *; simplify_eq; try done.
  all: split; [done|]; split; [|split; [|done]].
  all: try (intros k Hk; by rewrite lookup_insert_ne).
  all: rewrite fmap_insert; apply insert_id; rewrite lookup_fmap.
  all: match goal with H : _ !! _ = Some _ |- _ => by rewrite H end.
Qed.

Section Ohranjanje.

Variable O : okolje.

Lemma dodaj_vrstico_ohrani (t : Tabela) (podatki : slovar (option string)) (w : svet) :
  t ∈ pripravi_tabele ->
  tabele (rollback (conn (dodaj_vrstico O t podatki w).1)) = tabele (rollback (conn w))
  /\ shema <$> tabele (conn (dodaj_vrstico O t podatki w).1) = shema <$> tabele (conn w)
  /\ forall k, k <> kljuc t ->
       tabele (conn (dodaj_vrstico O t podatki w).1) !! k = tabele (conn w) !! k.
Proof.
  intros Ht. unfold dodaj_vrstico, vezi, dvigni, execute, zavrzi, vrni, dodajanje.
  set (d := brez_None podatki).
  destruct (izvedi _ _ _ _) as [c rc] eqn:Hiz.
  unfold izvedi in Hiz.
  destruct (pripravi_besedilo t (keys d) Ht) as [Hp|(cs & ps & vec & Hp)]; rewrite Hp in Hiz.
  - simplify_eq. simpl. by destruct (conn w) as [m [tx|] log akt rid].
  - apply izvedi_insert_ohrani in Hiz as (H1 & H2 & H3 & H4).
    assert (Hz : forall c0 : povezava,
               tabele (rollback (zabelezi c0 (besedilo t (keys d), d))) = tabele (rollback c0)).
    { by intros [m [tx|] log akt rid]. }
    rewrite Hz in H1. fold (kljuc t) in H3.
    destruct rc as [cur|e]; simpl; [|done].
    unfold sprosti. rewrite H4. done.
Qed.

Lemma uvozi_vrstice_ohrani (t : Tabela) (stolpci : list string)
    (vrstice : list (list string)) (konec : option izjema) (w : svet) :
  t ∈ pripravi_tabele ->
  tabele (rollback (conn (uvozi_vrstice O t stolpci vrstice konec w).1))
  = tabele (rollback (conn w))
  /\ shema <$> tabele (conn (uvozi_vrstice O t stolpci vrstice konec w).1)
     = shema <$> tabele (conn w)
  /\ forall k, k <> kljuc t ->
       tabele (conn (uvozi_vrstice O t stolpci vrstice konec w).1) !! k
       = tabele (conn w) !! k.
Proof.
  intros Ht. revert w. induction vrstice as [|v r IH]; intros w; simpl.
  { by destruct konec. }
  unfold vezi, klici_dodaj_vrstico.
  destruct (decide ("self" ∈ keys (dekodiraj stolpci v))); [done|].
  pose proof (dodaj_vrstico_ohrani t (dekodiraj stolpci v) w Ht) as (H1 & H2 & H3).
  destruct (dodaj_vrstico O t (dekodiraj stolpci v) w) as [w1 [id|e]];
    cbn [fst] in *; [|done].
  destruct (IH w1) as (H4 & H5 & H6). rewrite H4, H5. split; [done|]. split; [done|].
  intros k Hk. by rewrite H6, H3.
Qed.

Lemma uvozi_ohrani (t : Tabela) (encoding : string) (w : svet) :
  t ∈ pripravi_tabele ->
  tabele (rollback (conn (uvozi O t encoding w).1)) = tabele (rollback (conn w))
  /\ shema <$> tabele (conn (uvozi O t encoding w).1) = shema <$> tabele (conn w)
  /\ forall k, k <> kljuc t ->
       tabele (conn (uvozi O t encoding w).1) !! k = tabele (conn w) !! k.
Proof.
  intros Ht. unfold uvozi.
  destruct (podatki t) as [pot|]; [|done].
  destruct (odpri O pot encoding) as [[[|stolpci vrstice] konec]|e]; try done.
  by apply uvozi_vrstice_ohrani.
Qed.

Lemma uvozi_podatke_cons (t : Tabela) (l : list Tabela) (w : svet) :
  uvozi_podatke O (t :: l) w
  = match uvozi O t "UTF-8" (Svet (conn w) (izpis w ++ ["uvozi v tabelo " +:+ ime_niz t])) with
    | (w1, Vrni _) => uvozi_podatke O l w1
    | (w1, Sprozi e) => (w1, Sprozi e)
    end.
Proof.
  unfold uvozi_podatke. simpl. unfold vezi at 1 2, print.
  by destruct (uvozi O t "UTF-8" _) as [w1 [[]|e]].
Qed.

Lemma uvozi_podatke_ohrani (l : list Tabela) (w : svet) :
  (forall t, t ∈ l -> t ∈ pripravi_tabele) ->
  tabele (rollback (conn (uvozi_podatke O l w).1)) = tabele (rollback (conn w))
  /\ shema <$> tabele (conn (uvozi_podatke O l w).1) = shema <$> tabele (conn w)
  /\ forall k, k ∉ kljuc <$> l ->
       tabele (conn (uvozi_podatke O l w).1) !! k = tabele (conn w) !! k.
Proof.
  revert w. induction l as [|t l IH]; intros w Hl; [done|].
  rewrite uvozi_podatke_cons.
  pose proof (uvozi_ohrani t "UTF-8" (Svet (conn w) (izpis w ++ ["uvozi v tabelo " +:+ ime_niz t]))
                (Hl t (list_elem_of_here _ _))) as (H1 & H2 & H3).
  destruct (uvozi O t "UTF-8" _) as [w1 [[]|e]]; cbn [conn fst snd] in *.
  - destruct (IH w1) as (H4 & H5 & H6).
    { intros t' Ht'. apply Hl. by apply list_elem_of_further. }
    rewrite H4, H5. split; [done|]. split; [done|].
    intros k Hk. rewrite fmap_cons in Hk. apply not_elem_of_cons in Hk as [Hk1 Hk2].
    by rewrite H6, H3.
  - split; [done|]. split; [done|].
    intros k Hk. rewrite fmap_cons in Hk. apply not_elem_of_cons in Hk as [Hk1 Hk2].
    by apply H3.
Qed.

(** An import that returns has executed only inserts the engine reads,
    when the header names identifiers. *)
Lemma uvozi_prebrano (t : Tabela) (encoding : string) (w w' : svet) :
  t ∈ pripravi_tabele ->
  (forall pot stolpci vrstice konec,
     podatki t = Some pot ->
     odpri O pot encoding = Vrni (Tok (stolpci :: vrstice) konec) ->
     Forall (fun s => je_identifikator s = true) stolpci) ->
  uvozi O t encoding w = (w', Vrni tt) ->
  exists klici,
    dnevnik (conn w') = dnevnik (conn w) ++ klici /\ Forall (vstavi_eno t) klici.
Proof.
  intros Ht Hg. unfold uvozi.
  destruct (podatki t) as [pot|]; [|intros [= <-]; exists []; by rewrite app_nil_r].
  destruct (odpri O pot encoding) as [[[|stolpci vrstice] konec]|e] eqn:Ho;
    [discriminate| |discriminate].
  cbn [zapisi napaka]. intros H.
  pose proof H as H'. apply uvozi_vrstice_dnevnik in H' as (_ & n & _ & _ & Hr).
  destruct (Hr eq_refl) as [_ ->].
  apply uvozi_vrstice_potek in H as (n' & wn & _ & _ & Hl & Hf & _ & _ & _ & ->);
    [|done|by apply (Hg pot stolpci vrstice None)].
  eexists. split; [exact Hl|exact Hf].
Qed.

Lemma uvozi_podatke_prebrano (l : list Tabela) (w w' : svet) :
  (forall t, t ∈ l -> t ∈ pripravi_tabele) ->
  glave_z_imeni O l ->
  uvozi_podatke O l w = (w', Vrni tt) ->
  exists klici,
    dnevnik (conn w') = dnevnik (conn w) ++ klici
    /\ Forall (fun k => exists t, t ∈ l /\ vstavi_eno t k) klici.
Proof.
  revert w. induction l as [|t l IH]; intros w Hl Hg.
  { intros [= <-]. exists []. by rewrite app_nil_r. }
  rewrite uvozi_podatke_cons.
  destruct (uvozi O t "UTF-8" _) as [w1 [[]|e]] eqn:Hu; [|discriminate].
  intros H. apply uvozi_prebrano in Hu as (k1 & Hl1 & Hf1).
  - apply IH in H as (k2 & Hl2 & Hf2).
    + exists (k1 ++ k2). split.
      * rewrite Hl2, Hl1. cbn [conn]. by rewrite <- app_assoc.
      * apply Forall_app. split.
        -- eapply Forall_impl; [exact Hf1|]. intros k Hk. exists t. split; [by left|done].
        -- eapply Forall_impl; [exact Hf2|]. intros k (t' & Ht' & Hk).
           exists t'. split; [by right|done].
    + intros t' Ht'. apply Hl. by right.
    + intros t' pot stolpci vrstice konec Ht'. apply Hg. by right.
  - apply Hl. by left.
  - intros pot stolpci vrstice konec. apply Hg. by left.
Qed.

(** X6. An import changes no schema: after [uvozi_podatke] over any of
    the five tables, whether it returns or raises, the database has the
    same tables with the same columns as before; under every name there
    is a table afterwards exactly when there was one before. *)
Theorem uvozi_podatke_ohrani_shemo (l : list Tabela) (w : svet) :
  (forall t, t ∈ l -> t ∈ pripravi_tabele) ->
  shema <$> tabele (conn (uvozi_podatke O l w).1) = shema <$> tabele (conn w)
  /\ (forall k, shema <$> (tabele (conn (uvozi_podatke O l w).1) !! k)
                = shema <$> (tabele (conn w) !! k))
  /\ (forall k, is_Some (tabele (conn (uvozi_podatke O l w).1) !! k)
                <-> is_Some (tabele (conn w) !! k)).
Proof.
  intros Hl. destruct (uvozi_podatke_ohrani l w Hl) as (_ & H & _).
  assert (Hk : forall k, shema <$> (tabele (conn (uvozi_podatke O l w).1) !! k)
                         = shema <$> (tabele (conn w) !! k)).
  { intros k. by rewrite <- !lookup_fmap, H. }
  split; [done|]. split; [done|].
  intros k. rewrite <- !(fmap_is_Some shema). by rewrite Hk.
Qed.

(** X7. An import commits nothing: after [uvozi_podatke] over any of the
    five tables, whether it returns or raises, a rollback leads to the
    same tables as a rollback before it; when no transaction was open,
    these are the tables the import started from. *)
Theorem uvozi_podatke_ne_potrdi (l : list Tabela) (w : svet) :
  (forall t, t ∈ l -> t ∈ pripravi_tabele) ->
  tabele (rollback (conn (uvozi_podatke O l w).1)) = tabele (rollback (conn w))
  /\ (transakcija (conn w) = None ->
      tabele (rollback (conn (uvozi_podatke O l w).1)) = tabele (conn w)).
Proof.
  intros Hl. destruct (uvozi_podatke_ohrani l w Hl) as (H & _). split; [done|].
  intros Htx. rewrite H. unfold rollback. by rewrite Htx.
Qed.

(** X8. [uvozi_podatke] prints the line [uvozi v tabelo] with the name
    of a table right before it imports the table (each step of the loop
    appends the line of its table and then runs the import on the
    state with that line), and stops at the first import that raises.
    There is a number n of tables whose
    imports returned, one after another, with exactly their n lines
    printed. When the call returns, n is the length of the list. When
    it raises, the import of the table at place n, started after its
    line was printed, is the one that raised, with the exception of the
    call; the lines printed are those of the first n + 1 tables, and
    none for a later table. *)
Theorem uvozi_podatke_izpis (l : list Tabela) (w : svet) :
  (forall t l' w0,
     uvozi_podatke O (t :: l') w0
     = match uvozi O t "UTF-8" (Svet (conn w0) (izpis w0 ++ [vrstica_izpisa t])) with
       | (w1, Vrni _) => uvozi_podatke O l' w1
       | (w1, Sprozi e) => (w1, Sprozi e)
       end)
  /\ exists n wn,
    n <= length l
    /\ uvozi_podatke O (take n l) w = (wn, Vrni tt)
    /\ izpis wn = izpis w ++ (vrstica_izpisa <$> take n l)
    /\ match (uvozi_podatke O l w).2 with
       | Vrni _ => n = length l /\ (uvozi_podatke O l w).1 = wn
       | Sprozi e =>
           exists t,
             l !! n = Some t
             /\ uvozi O t "UTF-8" (Svet (conn wn) (izpis wn ++ [vrstica_izpisa t]))
                = ((uvozi_podatke O l w).1, Sprozi e)
             /\ izpis (uvozi_podatke O l w).1
                = izpis w ++ (vrstica_izpisa <$> take (S n) l)
       end.
Proof.
  split; [intros t l' w0; apply uvozi_podatke_cons|].
  revert w. induction l as [|t l IH]; intros w.
  { exists 0, w. simpl. by rewrite app_nil_r. }
  rewrite uvozi_podatke_cons. fold (vrstica_izpisa t).
  destruct (uvozi O t "UTF-8" _) as [w1 [[]|e]] eqn:Hu.
  - pose proof Hu as Hi. apply uvozi_dnevnik in Hi as [Hi _]. cbn [izpis] in Hi.
    destruct (IH w1) as (n & wn & Hn & Hrun & Hout & Hr).
    exists (S n), wn. split; [simpl; lia|]. split.
    { cbn [take]. rewrite uvozi_podatke_cons. fold (vrstica_izpisa t). by rewrite Hu. }
    split.
    { rewrite Hout, Hi. cbn [take]. rewrite fmap_cons. by rewrite <- app_assoc. }
    destruct (uvozi_podatke O l w1) as [w2 [[]|e]]; cbn [fst snd] in *.
    + destruct Hr as [-> ->]. done.
    + destruct Hr as (t' & Ht' & Hu' & Hout'). exists t'.
      split; [done|]. split; [done|].
      rewrite Hout', Hi. cbn [take]. rewrite (fmap_cons _ t). by rewrite <- app_assoc.
  - exists 0, w. cbn [take fst snd]. rewrite app_nil_r.
    split; [simpl; lia|]. split; [done|]. split; [done|].
    exists t. split; [done|]. split; [done|].
    apply uvozi_dnevnik in Hu as [Hi _]. cbn [izpis] in Hi.
    rewrite Hi. by rewrite take_0.
Qed.

End Ohranjanje.

Lemma uvozi_podatke_ohrani_shemo_primer :
  shema <$> tabele (conn (uvozi_podatke okolje_primer [Stranka] svet_s_stranko).1)
  = shema <$> tabele (conn svet_s_stranko).
Proof.
  refine (proj1 (uvozi_podatke_ohrani_shemo okolje_primer [Stranka] svet_s_stranko _)).
  intros t Ht. apply list_elem_of_singleton in Ht as ->.
  apply (bool_decide_unpack _). vm_compute. exact I.
Defined.

Lemma uvozi_podatke_ne_potrdi_primer :
  tabele (rollback (conn (uvozi_podatke okolje_primer [Stranka] svet_s_stranko).1))
  = tabele (conn svet_s_stranko).
Proof.
  refine (proj2 (uvozi_podatke_ne_potrdi okolje_primer [Stranka] svet_s_stranko _) _).
  - intros t Ht. apply list_elem_of_singleton in Ht as ->.
    apply (bool_decide_unpack _). vm_compute. exact I.
  - reflexivity.
Defined.

(** ** The functions over the list of tables *)

Lemma za_vsak_app {A} (f : A -> M unit) (l1 l2 : list A) (w : svet) :
  za_vsak f (l1 ++ l2) w
  = match za_vsak f l1 w with
    | (w1, Vrni _) => za_vsak f l2 w1
    | (w1, Sprozi e) => (w1, Sprozi e)
    end.
Proof.
  revert w. induction l1 as [|x l1 IH]; intros w; [done|].
  simpl. unfold vezi. destruct (f x w) as [w1 [[]|e]]; [apply IH|done].
Qed.


Section Seznami.

Variable O : okolje.



(** [ustvari_tabele] up to a table whose [ustvari] raises. *)
Lemma ustvari_tabele_do (l1 l2 : list Tabela) (t : Tabela) (w : svet) :
  (forall t', t' ∈ l1 -> t' ∈ pripravi_tabele) ->
  NoDup (kljuc <$> l1) ->
  (forall t', t' ∈ l1 -> tabele (conn w) !! kljuc t' = None) ->
  ustvari_tabele O (l1 ++ t :: l2) w
  = match ustvari O t
            (Svet (Povezava (ustvarjene l1 (tabele (conn w))) (transakcija (conn w))
                            (dnevnik (conn w) ++ (klic_ustvari <$> l1))
                            (aktivni (conn w)) (zadnji_rowid (conn w)))
                  (izpis w)) with
    | (w1, Vrni _) => ustvari_tabele O l2 w1
    | (w1, Sprozi e) => (w1, Sprozi e)
    end.
Proof.
  intros Hl Hnd Hn. unfold ustvari_tabele. rewrite za_vsak_app.
  fold (ustvari_tabele O l1). rewrite ustvari_tabele_potek by done.
  cbn [za_vsak]. unfold vezi. by destruct (ustvari O t _) as [w1 [[]|e]].
Qed.

(** X10. [ustvari_tabele] is not undone when it fails: it stops at the
    first table of the list that is there already and raises "table
    already exists"; the tables listed before it have been created and
    stay, the ones after it are not touched. *)
Theorem ustvari_tabele_obstojeca (l1 l2 : list Tabela) (t : Tabela) (w : svet) :
  (forall t', t' ∈ l1 -> t' ∈ pripravi_tabele) ->
  t ∈ pripravi_tabele ->
  NoDup (kljuc <$> l1) ->
  (forall t', t' ∈ l1 -> tabele (conn w) !! kljuc t' = None) ->
  is_Some (tabele (conn w) !! kljuc t) ->
  exists w',
    ustvari_tabele O (l1 ++ t :: l2) w
    = (w', Sprozi (OperationalError (TabelaObstaja (ime_niz t))))
    /\ tabele (conn w') = ustvarjene l1 (tabele (conn w))
    /\ (forall t', t' ∈ l1 -> tabele (conn w') !! kljuc t' = Some (nova_tabela t'))
    /\ (forall k, k ∉ kljuc <$> l1 -> tabele (conn w') !! k = tabele (conn w) !! k)
    /\ dnevnik (conn w') = dnevnik (conn w) ++ (klic_ustvari <$> l1 ++ [t]).
Proof.
  intros Hl Ht Hnd Hn Hs. rewrite ustvari_tabele_do by done.
  rewrite ustvari_potek by done. cbn zeta. cbn [conn tabele izpis].
  assert (Hk : kljuc t ∉ kljuc <$> l1).
  { intros Hin. apply list_elem_of_fmap in Hin as (t' & Heq & Ht').
    rewrite Heq, (Hn t' Ht') in Hs. by destruct Hs. }
  rewrite lookup_ustvarjene_drugje by done.
  destruct (tabele (conn w) !! kljuc t) as [ts|]; [|by destruct Hs].
  eexists. split; [reflexivity|]. cbn [conn tabele dnevnik zabelezi].
  split; [done|]. split; [|split].
  - intros t' Ht'. by apply lookup_ustvarjene.
  - intros k Hk'. by apply lookup_ustvarjene_drugje.
  - unfold zabelezi. simpl. by rewrite fmap_app, <- app_assoc.
Qed.

(** X11. A class that does not override [ustvari] stops
    [ustvari_tabele]: the call raises [NotImplementedError] when it
    reaches the table of such a class, without executing a statement for
    it; the tables listed before it have been created and stay. *)
Theorem ustvari_tabele_neprepisana (l1 l2 : list Tabela) (t : Tabela) (w : svet) :
  (forall t', t' ∈ l1 -> t' ∈ pripravi_tabele) ->
  NoDup (kljuc <$> l1) ->
  (forall t', t' ∈ l1 -> tabele (conn w) !! kljuc t' = None) ->
  ustvari_sql t = None ->
  exists w',
    ustvari_tabele O (l1 ++ t :: l2) w = (w', Sprozi NotImplementedError)
    /\ tabele (conn w') = ustvarjene l1 (tabele (conn w))
    /\ (forall t', t' ∈ l1 -> tabele (conn w') !! kljuc t' = Some (nova_tabela t'))
    /\ dnevnik (conn w') = dnevnik (conn w) ++ (klic_ustvari <$> l1).
Proof.
  intros Hl Hnd Hn Ht. rewrite ustvari_tabele_do by done.
  unfold ustvari. rewrite Ht. unfold sprozi.
  eexists. split; [reflexivity|]. cbn [conn tabele dnevnik].
  split; [done|]. split; [|done].
  intros t' Ht'. by apply lookup_ustvarjene.
Qed.

End Seznami.


Lemma ustvari_tabele_obstojeca_primer :
  exists w',
    ustvari_tabele okolje_primer [Oblacila; Stranka; Zaloga] svet_s_stranko
    = (w', Sprozi (OperationalError (TabelaObstaja "stranka")))
    /\ tabele (conn w') !! "oblacilo" = Some (nova_tabela Oblacila).
Proof.
  destruct (ustvari_tabele_obstojeca okolje_primer [Oblacila] [Zaloga] Stranka svet_s_stranko)
    as (w' & H1 & _ & H2 & _).
  - intros t Ht. apply list_elem_of_singleton in Ht as ->.
    apply (bool_decide_unpack _). vm_compute. exact I.
  - apply (bool_decide_unpack _). vm_compute. exact I.
  - apply (bool_decide_unpack _). vm_compute. exact I.
  - intros t Ht. apply list_elem_of_singleton in Ht as ->. vm_compute. reflexivity.
  - apply (bool_decide_unpack _). vm_compute. exact I.
  - exists w'. split; [exact H1|]. apply (H2 Oblacila). apply list_elem_of_here.
Defined.

Lemma ustvari_tabele_neprepisana_primer :
  exists w',
    ustvari_tabele okolje_primer [Stranka; Tabela_osnova; Zaloga] svet_prazen
    = (w', Sprozi NotImplementedError)
    /\ tabele (conn w') !! "stranka" = Some (nova_tabela Stranka).
Proof.
  destruct (ustvari_tabele_neprepisana okolje_primer [Stranka] [Zaloga] Tabela_osnova
              svet_prazen) as (w' & H1 & _ & H2 & _).
  - intros t Ht. apply list_elem_of_singleton in Ht as ->.
    apply (bool_decide_unpack _). vm_compute. exact I.
  - apply (bool_decide_unpack _). vm_compute. exact I.
  - intros t Ht. apply list_elem_of_singleton in Ht as ->. vm_compute. reflexivity.
  - reflexivity.
  - exists w'. split; [exact H1|]. apply (H2 Stranka). apply list_elem_of_here.
Defined.

(** ** Emptying the tables *)

Section Praznjenje.

Variable O : okolje.

(** [izprazni_tabele] over tables that are all there. *)
Lemma izprazni_tabele_potek (l : list Tabela) (w : svet) :
  (forall t, t ∈ l -> t ∈ pripravi_tabele) ->
  (forall t, t ∈ l -> is_Some (tabele (conn w) !! kljuc t)) ->
  exists w',
    izprazni_tabele O l w = (w', Vrni tt)
    /\ (forall k, tabele (conn w') !! k
                  = if decide (k ∈ kljuc <$> l)
                    then brez_vrstic <$> tabele (conn w) !! k
                    else tabele (conn w) !! k)
    /\ tabele (rollback (conn w')) = tabele (rollback (conn w))
    /\ (l <> [] -> is_Some (transakcija (conn w')))
    /\ dnevnik (conn w') = dnevnik (conn w) ++ ((fun t => (sql_izprazni t, [])) <$> l)
    /\ aktivni (conn w') = aktivni (conn w)
    /\ izpis w' = izpis w.
Proof.
  revert w. induction l as [|t l IH]; intros w Hl Hs.
  - exists w. unfold izprazni_tabele. simpl. rewrite app_nil_r. by repeat split.
  - unfold izprazni_tabele in *. cbn [za_vsak]. unfold vezi.
    rewrite izprazni_potek by (apply Hl; by left). cbn zeta.
    destruct (Hs t (list_elem_of_here _ _)) as [ts Hts]. rewrite Hts.
    match goal with |- context [za_vsak _ l ?w0] => set (w1 := w0) end.
    destruct (IH w1) as (w' & H1 & H2 & H3 & H4 & H5 & H6 & H7).
    { intros t0 ?. apply Hl. by right. }
    { intros t0 Ht0. subst w1. cbn [conn tabele z_tabelami].
      destruct (decide (kljuc t0 = kljuc t)) as [->|Hne].
      - by rewrite lookup_insert_eq.
      - rewrite lookup_insert_ne by done. apply Hs. by right. }
    exists w'. split; [done|].
    destruct w as [[m tx log akt rid] out]. subst w1.
    cbn [conn tabele z_tabelami zacni zabelezi transakcija dnevnik aktivni zadnji_rowid izpis]
      in *.
    assert (Hz : forall c : povezava, tabele (zacni c) = tabele c /\ dnevnik (zacni c) = dnevnik c
                                      /\ aktivni (zacni c) = aktivni c).
    { by intros [? [?|] ? ? ?]. }
    split; [|split; [|split; [|split; [|split]]]].
    + intros k. rewrite H2, fmap_cons.
      destruct (decide (k ∈ kljuc t :: (kljuc <$> l))) as [Hin|Hin].
      * destruct (decide (k = kljuc t)) as [->|Hne].
        -- rewrite lookup_insert_eq, Hts. by destruct (decide (kljuc t ∈ kljuc <$> l)).
        -- rewrite lookup_insert_ne by done.
           apply elem_of_cons in Hin as [?|Hin]; [done|]. by rewrite decide_True.
      * apply not_elem_of_cons in Hin as [Hne Hin].
        rewrite decide_False by done. by rewrite lookup_insert_ne.
    + rewrite H3. by destruct tx.
    + intros _. destruct l as [|t1 l1]; [|by apply H4].
      cbn [za_vsak] in H1. unfold vrni in H1. cbv beta in H1.
      injection H1 as <-. destruct tx; simpl; eauto.
    + rewrite H5. destruct tx; simpl; by rewrite <- app_assoc.
    + rewrite H6. by destruct tx.
    + done.
Qed.

(** X12. When the listed tables are all there, [izprazni_tabele] returns
    and leaves each of them with its columns and without rows, and every
    other table as it was. Nothing of this is committed: a transaction
    is left open, and a rollback leads to the same tables as a rollback
    before the call. *)
Theorem izprazni_tabele_vse (l : list Tabela) (w : svet) :
  (forall t, t ∈ l -> t ∈ pripravi_tabele) ->
  (forall t, t ∈ l -> is_Some (tabele (conn w) !! kljuc t)) ->
  exists w',
    izprazni_tabele O l w = (w', Vrni tt)
    /\ (forall t ts, t ∈ l -> tabele (conn w) !! kljuc t = Some ts ->
          tabele (conn w') !! kljuc t = Some (TabelaStanje (shema ts) [] (zaporedje ts)))
    /\ (forall k, k ∉ kljuc <$> l -> tabele (conn w') !! k = tabele (conn w) !! k)
    /\ tabele (rollback (conn w')) = tabele (rollback (conn w))
    /\ (l <> [] -> is_Some (transakcija (conn w'))).
Proof.
  intros Hl Hs.
  destruct (izprazni_tabele_potek l w Hl Hs) as (w' & H1 & H2 & H3 & H4 & _).
  exists w'. split; [done|]. split; [|split; [|done]].
  - intros t ts Ht Hts. rewrite H2, decide_True, Hts; [done|].
    apply list_elem_of_fmap. by exists t.
  - intros k Hk. by rewrite H2, decide_False.
Qed.

(** X13. [izprazni_tabele] stops at the first listed table that is not
    there and raises "no such table"; the tables listed before it have
    lost their rows, the tables listed after it are not touched. *)
Theorem izprazni_tabele_manjka (l1 l2 : list Tabela) (t : Tabela) (w : svet) :
  (forall t', t' ∈ l1 -> t' ∈ pripravi_tabele) ->
  t ∈ pripravi_tabele ->
  (forall t', t' ∈ l1 -> is_Some (tabele (conn w) !! kljuc t')) ->
  tabele (conn w) !! kljuc t = None ->
  exists w',
    izprazni_tabele O (l1 ++ t :: l2) w
    = (w', Sprozi (OperationalError (NiTabele (ime_niz t))))
    /\ (forall t' ts, t' ∈ l1 -> tabele (conn w) !! kljuc t' = Some ts ->
          tabele (conn w') !! kljuc t' = Some (TabelaStanje (shema ts) [] (zaporedje ts)))
    /\ (forall k, k ∉ kljuc <$> l1 -> tabele (conn w') !! k = tabele (conn w) !! k)
    /\ dnevnik (conn w')
       = dnevnik (conn w) ++ ((fun t => (sql_izprazni t, [])) <$> l1 ++ [t]).
Proof.
  intros Hl Ht Hs Hn.
  destruct (izprazni_tabele_potek l1 w Hl Hs) as (w1 & H1 & H2 & _ & _ & H5 & _).
  assert (Hk : kljuc t ∉ kljuc <$> l1).
  { intros Hin. apply list_elem_of_fmap in Hin as (t' & Heq & Ht').
    destruct (Hs t' Ht') as [ts Hts]. rewrite <- Heq in Hts. congruence. }
  unfold izprazni_tabele in *. rewrite za_vsak_app, H1.
  cbn [za_vsak]. unfold vezi. rewrite izprazni_potek by done. cbn zeta.
  rewrite H2, decide_False, Hn by done.
  eexists. split; [reflexivity|]. cbn [conn tabele dnevnik zabelezi].
  split; [|split].
  - intros t' ts Ht' Hts. rewrite H2, decide_True, Hts; [done|].
    apply list_elem_of_fmap. by exists t'.
  - intros k Hk'. by rewrite H2, decide_False.
  - unfold zabelezi. simpl. by rewrite H5, fmap_app, <- app_assoc.
Qed.

End Praznjenje.

Lemma izprazni_tabele_vse_primer :
  exists w',
    izprazni_tabele okolje_trgovina pripravi_tabele svet_po_zagonu = (w', Vrni tt)
    /\ tabele (rollback (conn w')) = tabele (conn svet_po_zagonu).
Proof.
  destruct (izprazni_tabele_vse okolje_trgovina pripravi_tabele svet_po_zagonu)
    as (w' & H1 & _ & _ & H2 & _).
  - done.
  - intros t Ht. po_tabelah Ht; apply (bool_decide_unpack _); vm_compute; exact I.
  - exists w'. split; [exact H1|exact H2].
Defined.

Lemma izprazni_tabele_manjka_primer :
  exists w',
    izprazni_tabele okolje_primer [Stranka; Zaloga; Oblacila] svet_s_stranko
    = (w', Sprozi (OperationalError (NiTabele "zaloga"))).
Proof.
  destruct (izprazni_tabele_manjka okolje_primer [Stranka] [Oblacila] Zaloga svet_s_stranko)
    as (w' & H1 & _).
  - intros t Ht. apply list_elem_of_singleton in Ht as ->.
    apply (bool_decide_unpack _). vm_compute. exact I.
  - apply (bool_decide_unpack _). vm_compute. exact I.
  - intros t Ht. apply list_elem_of_singleton in Ht as ->.
    apply (bool_decide_unpack _). vm_compute. exact I.
  - vm_compute. reflexivity.
  - exists w'. exact H1.
Defined.

(** ** Building the database *)

Section Gradnja.

Variable O : okolje.




(** A read of a table that is there: the call is logged, the cursor is
    released, nothing else changes. *)
Lemma preberi_potek (sql n : string) (w : svet) :
  pripravi sql = Some (SSelect false n, false) ->
  mala n <> "sqlite_master" ->
  is_Some (tabele (conn w) !! mala n) ->
  preberi O sql w
  = (Svet (Povezava (tabele (conn w)) (transakcija (conn w)) (dnevnik (conn w) ++ [(sql, [])])
                    (aktivni (conn w)) (zadnji_rowid (conn w)))
          (izpis w),
     Vrni tt).
Proof.
  intros Hp Hne [ts Hts]. destruct w as [[m tx log akt rid] out].
  unfold preberi, vezi, execute, zavrzi. rewrite (izvedi_pripravljen _ _ _ _ _ _ Hp).
  unfold izvedi_stavek, zabelezi. simpl in *.
  rewrite decide_False by done. rewrite Hts. unfold poizvedba.
  by destruct (negb _).
Qed.

(** The statements of the script that read the five tables, before
    whatever follows them. *)
Lemma skripta_branje (k : M unit) (w : svet) :
  (forall t, t ∈ pripravi_tabele -> is_Some (tabele (conn w) !! kljuc t)) ->
  (preberi O "SELECT * FROM stranka" ;;;
   preberi O "SELECT * FROM oblacilo" ;;;
   preberi O "SELECT * FROM zaloga" ;;;
   preberi O "SELECT * FROM kosarica" ;;;
   preberi O "SELECT * FROM narocilo" ;;;
   k)%met w
  = k (Svet (Povezava (tabele (conn w)) (transakcija (conn w))
                      (dnevnik (conn w)
                       ++ [("SELECT * FROM stranka", []); ("SELECT * FROM oblacilo", []);
                           ("SELECT * FROM zaloga", []); ("SELECT * FROM kosarica", []);
                           ("SELECT * FROM narocilo", [])])
                      (aktivni (conn w)) (zadnji_rowid (conn w)))
            (izpis w)).
Proof.
  intros Hs. unfold vezi.
  rewrite (preberi_potek _ "stranka") by
    (done || apply (Hs Stranka); apply (bool_decide_unpack _); vm_compute; exact I).
  rewrite (preberi_potek _ "oblacilo") by
    (done || apply (Hs Oblacila); apply (bool_decide_unpack _); vm_compute; exact I).
  rewrite (preberi_potek _ "zaloga") by
    (done || apply (Hs Zaloga); apply (bool_decide_unpack _); vm_compute; exact I).
  rewrite (preberi_potek _ "kosarica") by
    (done || apply (Hs Kosarica); apply (bool_decide_unpack _); vm_compute; exact I).
  rewrite (preberi_potek _ "narocilo") by
    (done || apply (Hs Narocilo); apply (bool_decide_unpack _); vm_compute; exact I).
  cbn [conn tabele transakcija dnevnik aktivni zadnji_rowid izpis].
  by rewrite <- !app_assoc.
Qed.

(** When [ustvari_bazo_ce_ne_obstaja] returns, the five tables are
    there and no transaction is open. *)
Lemma ustvari_bazo_ce_ne_obstaja_vrne (w w' : svet) :
  ustvari_bazo_ce_ne_obstaja O w = (w', Vrni tt) ->
  (forall t, t ∈ pripravi_tabele -> is_Some (tabele (conn w') !! kljuc t))
  /\ transakcija (conn w') = None
  /\ aktivni (conn w') = aktivni (conn w).
Proof.
  intros Hu.
  destruct (decide (Exists (fun t => is_Some (tabele (conn w) !! kljuc t)) pripravi_tabele))
    as [He|He].
  - exfalso. apply Exists_exists in He as (t & Ht & Hs).
    rewrite ustvari_bazo_ce_ne_obstaja_razvoj in Hu. unfold ustvari_bazo, vezi in Hu.
    destruct (izbrisi_tabele_zaklenjena O pripravi_tabele
                (Svet (Povezava (tabele (conn w)) (transakcija (conn w))
                                (dnevnik (conn w) ++ [(sql_obstoj, [])])
                                (S (aktivni (conn w))) (zadnji_rowid (conn w)))
                      (izpis w))) as [log' Hz]; [done|done|by exists t|].
    rewrite Hz in Hu. discriminate.
  - assert (Hn : forall t, t ∈ pripravi_tabele -> tabele (conn w) !! kljuc t = None).
    { intros t Ht. destruct (tabele (conn w) !! kljuc t) eqn:Hts; [|done].
      exfalso. apply He, Exists_exists. exists t. by rewrite Hts. }
    pose proof (ustvari_bazo_ce_ne_obstaja_prvic O w Hn) as [_ Hp].
    pose proof Hu as Hu'. rewrite ustvari_bazo_ce_ne_obstaja_razvoj in Hu'.
    rewrite Hu in Hp. cbn [fst snd] in Hp. destruct (Hp eq_refl) as [Hakt Ht].
    split; [|split; [|done]].
    + intros t Hin. destruct (Ht t Hin) as (? & ? & ? & ts & _ & _ & Hts & _). by rewrite Hts.
    + destruct (ustvari_bazo O _) as [w1 [[]|e]]; [|discriminate].
      injection Hu' as <-. done.
Qed.

Lemma skripta_razvoj (w : svet) :
  skripta O w
  = match ustvari_bazo_ce_ne_obstaja O w with
    | (w1, Vrni _) =>
        (preberi O "SELECT * FROM stranka" ;;;
         preberi O "SELECT * FROM oblacilo" ;;;
         preberi O "SELECT * FROM zaloga" ;;;
         preberi O "SELECT * FROM kosarica" ;;;
         preberi O "SELECT * FROM narocilo" ;;;
         (fun w => (Svet (rollback (conn w)) (izpis w), Vrni tt)))%met w1
    | (w1, Sprozi e) => (w1, Sprozi e)
    end.
Proof.
  unfold skripta. unfold vezi at 1.
  by destruct (ustvari_bazo_ce_ne_obstaja O w) as [w1 [[]|e]].
Qed.

(** X16. The script fails exactly when the build fails: the reads of
    the five tables and the close raise nothing and change no table.
    The outcome of the script is the outcome of
    [ustvari_bazo_ce_ne_obstaja], and so are the tables and the printed
    lines; when the script returns, the five reads were executed after
    the build, in the order of the script, and no statement and no
    transaction is left open. *)
Theorem skripta_izid (w : svet) :
  (skripta O w).2 = (ustvari_bazo_ce_ne_obstaja O w).2
  /\ tabele (conn (skripta O w).1) = tabele (conn (ustvari_bazo_ce_ne_obstaja O w).1)
  /\ izpis (skripta O w).1 = izpis (ustvari_bazo_ce_ne_obstaja O w).1
  /\ match (skripta O w).2 with
     | Vrni _ =>
         dnevnik (conn (skripta O w).1)
         = dnevnik (conn (ustvari_bazo_ce_ne_obstaja O w).1)
           ++ [("SELECT * FROM stranka", []); ("SELECT * FROM oblacilo", []);
               ("SELECT * FROM zaloga", []); ("SELECT * FROM kosarica", []);
               ("SELECT * FROM narocilo", [])]
         /\ aktivni (conn (skripta O w).1) = aktivni (conn w)
         /\ transakcija (conn (skripta O w).1) = None
     | Sprozi _ => skripta O w = ustvari_bazo_ce_ne_obstaja O w
     end.
Proof.
  rewrite skripta_razvoj.
  destruct (ustvari_bazo_ce_ne_obstaja O w) as [w1 [[]|e]] eqn:Hu; [|done].
  apply ustvari_bazo_ce_ne_obstaja_vrne in Hu as (Hs & Htx & Hakt).
  rewrite skripta_branje by done.
  cbn [fst snd conn tabele izpis]. unfold rollback.
  cbn [transakcija]. rewrite Htx. done.
Qed.

End Gradnja.

(** The headers of the sources of an example are identifiers: each
    source is opened and its header checked. *)
Ltac glave_primera :=
  let Ht := fresh "Ht" in
  let Hp := fresh "Hp" in
  let Ho := fresh "Ho" in
  intros ? ? ? ? ? Ht Hp Ho;
  repeat (apply elem_of_cons in Ht as [->|Ht]);
  [..|by apply elem_of_nil in Ht];
  injection Hp as <-; vm_compute in Ho;
  first [discriminate Ho
        |injection Ho as <- _ _; apply (bool_decide_unpack _); vm_compute; exact I].



(** ** The five classes *)

(** X17. The five classes of [pripravi_tabele] are consistent. For each
    of them the statement of [ustvari] is read as the creation of the
    very table the attribute [ime] names, with no column declared twice,
    and the statements of [izbrisi] and [izprazni] address the same
    table; each class names a source; and the five names differ, also
    when case is ignored. *)
Theorem podrazredi_skladni :
  Forall (fun t =>
            exists n sql stolpci,
              ime t = Some n
              /\ ustvari_sql t = Some sql
              /\ pripravi sql = Some (SCreate n stolpci, false)
              /\ podvojen ((fun s => mala (s_ime s)) <$> stolpci) = None
              /\ pripravi (sql_izbrisi t) = Some (SDrop n, false)
              /\ pripravi (sql_izprazni t) = Some (SDelete n, false)
              /\ is_Some (podatki t))
         pripravi_tabele
  /\ NoDup (kljuc <$> pripravi_tabele).
Proof.
  split; [|apply kljuci_razlicni].
  apply Forall_forall. intros t Ht. po_tabelah Ht.
  all: eexists _, _, _; split; [reflexivity|]; split; [reflexivity|].
  all: split; [vm_compute; reflexivity|].
  all: split; [vm_compute; reflexivity|].
  all: split; [vm_compute; reflexivity|].
  all: split; [vm_compute; reflexivity|].
  all: by eexists.
Qed.

(** ** More on the functions over the list of tables *)

Section SeznamiDalje.

Variable O : okolje.

(** X18. While a statement is in progress, [izbrisi_tabele] changes no
    table: it returns when none of the listed tables is there, and
    raises "database table is locked" as soon as it reaches a listed
    table that is there. *)
Theorem izbrisi_tabele_zasedena (l : list Tabela) (w : svet) :
  (forall t, t ∈ l -> t ∈ pripravi_tabele) ->
  aktivni (conn w) <> 0 ->
  tabele (conn (izbrisi_tabele O l w).1) = tabele (conn w)
  /\ ((forall t, t ∈ l -> tabele (conn w) !! kljuc t = None) ->
      (izbrisi_tabele O l w).2 = Vrni tt)
  /\ ((exists t, t ∈ l /\ is_Some (tabele (conn w) !! kljuc t)) ->
      (izbrisi_tabele O l w).2 = Sprozi (OperationalError TabelaZaklenjena)).
Proof.
  intros Hl Hakt.
  destruct (decide (Exists (fun t => is_Some (tabele (conn w) !! kljuc t)) l)) as [He|He].
  - apply Exists_exists in He.
    destruct (izbrisi_tabele_zaklenjena O l w Hl Hakt He) as [log' ->].
    split; [done|]. split; [|done].
    intros Hn. destruct He as (t & Ht & Hs). rewrite (Hn t Ht) in Hs. by destruct Hs.
  - assert (Hn : forall t, t ∈ l -> tabele (conn w) !! kljuc t = None).
    { intros t Ht. destruct (tabele (conn w) !! kljuc t) eqn:Hts; [|done].
      exfalso. apply He, Exists_exists. exists t. by rewrite Hts. }
    rewrite izbrisi_tabele_ni by done.
    split; [done|]. split; [done|].
    intros (t & Ht & Hs). rewrite (Hn t Ht) in Hs. by destruct Hs.
Qed.


(** X20. [uvozi_podatke] adds rows and never replaces them. For
    sources whose headers are identifiers: when it returns, every
    statement it executed was an insert of one row into a listed table,
    and each listed table that was there has gained exactly as many rows
    as its source has records after the header, and keeps its columns;
    run a second time, it adds as many again. *)
Theorem uvozi_podatke_pristeje (l : list Tabela) (w w' : svet) :
  (forall t, t ∈ l -> t ∈ pripravi_tabele) ->
  NoDup (kljuc <$> l) ->
  glave_z_imeni O l ->
  (forall t, t ∈ l -> is_Some (tabele (conn w) !! kljuc t)) ->
  uvozi_podatke O l w = (w', Vrni tt) ->
  (exists klici,
     dnevnik (conn w') = dnevnik (conn w) ++ klici
     /\ Forall (fun k => exists t, t ∈ l /\ vstavi_eno t k) klici)
  /\ forall t, t ∈ l ->
       exists pot stolpci vrstice,
         podatki t = Some pot
         /\ odpri O pot "UTF-8" = Vrni (Tok (stolpci :: vrstice) None)
         /\ stevilo_vrstic w' (kljuc t) = stevilo_vrstic w (kljuc t) + length vrstice
         /\ (shema <$> tabele (conn w') !! kljuc t) = (shema <$> tabele (conn w) !! kljuc t)
         /\ forall w'', uvozi_podatke O l w' = (w'', Vrni tt) ->
              stevilo_vrstic w'' (kljuc t) = stevilo_vrstic w (kljuc t) + 2 * length vrstice.
Proof.
  intros Hl Hnd Hg Hs Hu. split; [by apply (uvozi_podatke_prebrano O l w w')|].
  intros t Ht.
  destruct (Hs t Ht) as [ts Hts].
  pose proof Hu as Hu1.
  apply uvozi_podatke_tabele in Hu1 as [_ Hk]; [|done|done].
  destruct (Hk t ts Ht Hts) as (pot & stolpci & vrstice & ts' & H1 & H2 & H3 & H4 & H5).
  exists pot, stolpci, vrstice. split; [done|]. split; [done|].
  unfold stevilo_vrstic. rewrite H3, Hts. split; [done|]. split; [simpl; by rewrite H4|].
  intros w'' Hu2.
  apply uvozi_podatke_tabele in Hu2 as [_ Hk2]; [|done|done].
  destruct (Hk2 t ts' Ht H3) as (pot2 & stolpci2 & vrstice2 & ts2 & G1 & G2 & G3 & G4 & G5).
  rewrite G3. rewrite H1 in G1. injection G1 as <-. rewrite H2 in G2.
  injection G2 as <- <-. lia.
Qed.

(** X21. Emptying and importing again brings the tables to the state of
    their sources. For sources whose headers are identifiers: when
    [izprazni_tabele] followed by [uvozi_podatke] over listed tables
    that are there returns, the statements executed are the deletes of
    the listed tables and then inserts of one row each, and each listed
    table keeps its columns and holds exactly as many rows as its source
    has records after the header, whatever it held before. *)
Theorem izprazni_in_uvozi (l : list Tabela) (w w' : svet) :
  (forall t, t ∈ l -> t ∈ pripravi_tabele) ->
  NoDup (kljuc <$> l) ->
  glave_z_imeni O l ->
  (forall t, t ∈ l -> is_Some (tabele (conn w) !! kljuc t)) ->
  (izprazni_tabele O l ;;; uvozi_podatke O l)%met w = (w', Vrni tt) ->
  (exists klici,
     dnevnik (conn w')
     = dnevnik (conn w) ++ ((fun t => (sql_izprazni t, [])) <$> l) ++ klici
     /\ Forall (fun k => exists t, t ∈ l /\ vstavi_eno t k) klici)
  /\ forall t, t ∈ l ->
       exists pot stolpci vrstice,
         podatki t = Some pot
         /\ odpri O pot "UTF-8" = Vrni (Tok (stolpci :: vrstice) None)
         /\ stevilo_vrstic w' (kljuc t) = length vrstice
         /\ (shema <$> tabele (conn w') !! kljuc t) = (shema <$> tabele (conn w) !! kljuc t).
Proof.
  intros Hl Hnd Hg Hs Hu.
  destruct (izprazni_tabele_potek O l w Hl Hs) as (w1 & H1 & H2 & _ & _ & H5 & _).
  unfold vezi in Hu. rewrite H1 in Hu. split.
  { apply uvozi_podatke_prebrano in Hu as (klici & Hlog & Hf); [|done|done].
    exists klici. split; [|done]. by rewrite Hlog, H5, <- app_assoc. }
  intros t Ht.
  destruct (Hs t Ht) as [ts Hts].
  assert (Hts1 : tabele (conn w1) !! kljuc t = Some (brez_vrstic ts)).
  { rewrite H2, decide_True, Hts; [done|]. apply list_elem_of_fmap. by exists t. }
  apply uvozi_podatke_tabele in Hu as [_ Hk]; [|done|done].
  destruct (Hk t _ Ht Hts1) as (pot & stolpci & vrstice & ts' & G1 & G2 & G3 & G4 & G5).
  exists pot, stolpci, vrstice. split; [done|]. split; [done|].
  unfold stevilo_vrstic. rewrite G3, Hts. simpl. by rewrite G4, G5.
Qed.

End SeznamiDalje.

Lemma izbrisi_tabele_zasedena_primer :
  (izbrisi_tabele okolje_primer [Zaloga; Stranka] svet_s_poizvedbo).2
  = Sprozi (OperationalError TabelaZaklenjena).
Proof.
  refine (proj2 (proj2 (izbrisi_tabele_zasedena okolje_primer [Zaloga; Stranka]
                          svet_s_poizvedbo _ _)) _).
  - intros t Ht. apply elem_of_cons in Ht as [->|Ht];
      [|apply list_elem_of_singleton in Ht as ->];
      apply (bool_decide_unpack _); vm_compute; exact I.
  - discriminate.
  - exists Stranka. split; apply (bool_decide_unpack _); vm_compute; exact I.
Defined.


Lemma uvozi_podatke_pristeje_primer :
  exists pot stolpci vrstice,
    podatki Stranka = Some pot
    /\ odpri okolje_primer pot "UTF-8" = Vrni (Tok (stolpci :: vrstice) None)
    /\ stevilo_vrstic (uvozi_podatke okolje_primer [Stranka] svet_s_stranko).1 "stranka"
       = stevilo_vrstic svet_s_stranko "stranka" + length vrstice.
Proof.
  destruct (uvozi_podatke_pristeje okolje_primer [Stranka] svet_s_stranko
              (uvozi_podatke okolje_primer [Stranka] svet_s_stranko).1) as [_ H].
  - intros t Ht. apply list_elem_of_singleton in Ht as ->.
    apply (bool_decide_unpack _). vm_compute. exact I.
  - apply (bool_decide_unpack _). vm_compute. exact I.
  - glave_primera.
  - intros t Ht. apply list_elem_of_singleton in Ht as ->.
    apply (bool_decide_unpack _). vm_compute. exact I.
  - vm_compute. reflexivity.
  - destruct (H Stranka) as (pot & stolpci & vrstice & H1 & H2 & H3 & _).
    + apply list_elem_of_here.
    + exists pot, stolpci, vrstice. split; [exact H1|]. split; [exact H2|exact H3].
Defined.

Lemma izprazni_in_uvozi_primer :
  exists pot stolpci vrstice,
    podatki Stranka = Some pot
    /\ odpri okolje_trgovina pot "UTF-8" = Vrni (Tok (stolpci :: vrstice) None)
    /\ stevilo_vrstic
         ((izprazni_tabele okolje_trgovina pripravi_tabele ;;;
           uvozi_podatke okolje_trgovina pripravi_tabele)%met svet_po_zagonu).1 "stranka"
       = length vrstice.
Proof.
  destruct (izprazni_in_uvozi okolje_trgovina pripravi_tabele svet_po_zagonu
              ((izprazni_tabele okolje_trgovina pripravi_tabele ;;;
                uvozi_podatke okolje_trgovina pripravi_tabele)%met svet_po_zagonu).1)
    as [_ H].
  - done.
  - apply (bool_decide_unpack _). vm_compute. exact I.
  - unfold pripravi_tabele. glave_primera.
  - intros t Ht. po_tabelah Ht; apply (bool_decide_unpack _); vm_compute; exact I.
  - vm_compute. reflexivity.
  - destruct (H Stranka) as (pot & stolpci & vrstice & H1 & H2 & H3 & _).
    + apply (bool_decide_unpack _). vm_compute. exact I.
    + exists pot, stolpci, vrstice. split; [exact H1|]. split; [exact H2|exact H3].
Defined.
